(** * AwtFit: the outfit composition engine of [src/App.tsx]

    A shallow embedding of the React state of the [App] component and of
    its event handlers: the history of outfit layers with its cursor, the
    per-layer pose cache, the garment registry and the replay of a saved
    outfit.

    The handlers of [App.tsx] are [async]: they run up to an [await], are
    suspended while a service call is outstanding, and continue when the
    promise settles.  The embedding is therefore a small-step one.  A
    handler is a function on [AppState] which, when it reaches an [await],
    stores its continuation (the values its closure captured) in the
    field [inflight]; [settle] delivers the outcome of the awaited promise
    and runs the rest of the handler.  The services themselves
    ([generateVirtualTryOnImage], [generatePoseVariation], [urlToFile]) are
    not part of the engine: their outcomes are inputs of the model, and the
    generation requests that were issued are recorded in [genLog]. *)

From Stdlib Require Import QArith.
From stdpp Require Import base list strings option.
From stdpp Require pretty.

Local Close Scope Q_scope.
Local Open Scope string_scope.
Local Open Scope nat_scope.

(** ** Data model *)

(** [WardrobeItem] of [types.ts], with the fields that [wardrobe.ts] and
    [WardrobePanel.tsx] give it. *)
Module WardrobeItem.
Record t : Type := mk {
  id : string;
  name : string;
  url : string;
  brand : option string;
  material : option string;
  price : option Q
}.
End WardrobeItem.

(** [SavedOutfit], as [handleSaveOutfit] builds it. *)
Module SavedOutfit.
Record t : Type := mk {
  id : string;
  name : string;
  garmentIds : list string;
  previewUrl : string
}.
End SavedOutfit.

(** A browser [File]: opaque to the engine, which only hands it on to the
    generation service. *)
Record File : Type := mkFile {
  fileName : string;
  fileType : string;
  fileBody : string
}.

(** [poseImages: Record<string, string>].  A JS object keeps its string
    keys in insertion order, and [Object.values(o)[0]] depends on that
    order, so the cache is an association list. *)
Definition PoseImages : Type := list (string * string).

(** [o[k]] *)
Fixpoint getProp (o : PoseImages) (k : string) : option string :=
  match o with
  | [] => None
  | (k', v) :: o' => if bool_decide (k' = k) then Some v else getProp o' k
  end.

(** [o[k] = v]: an existing key keeps its place, a new key goes last. *)
Fixpoint setProp (o : PoseImages) (k v : string) : PoseImages :=
  match o with
  | [] => [(k, v)]
  | (k', v') :: o' =>
      if bool_decide (k' = k) then (k', v) :: o' else (k', v') :: setProp o' k v
  end.

(** [Object.values(o)[0]] *)
Definition firstValue (o : PoseImages) : option string :=
  match o with
  | [] => None
  | (_, v) :: _ => Some v
  end.

(** [Object.keys(o)] *)
Definition keys (o : PoseImages) : list string := map fst o.

(** JS truthiness of a [string | null | undefined]. *)
Definition truthy (s : option string) : bool :=
  match s with
  | Some v => negb (bool_decide (v = ""))
  | None => false
  end.

(** A property key that is [undefined] is coerced to the string
    ["undefined"]. *)
Definition propKey (k : option string) : string :=
  match k with
  | Some s => s
  | None => "undefined"
  end.

Record OutfitLayer : Type := mkLayer {
  garment : option WardrobeItem.t;
  poseImages : PoseImages
}.

Definition POSE_INSTRUCTIONS : list string :=
  [ "Full frontal view, hands on hips";
    "Slightly turned, 3/4 view";
    "Side profile view";
    "Jumping in the air, mid-action shot";
    "Walking towards camera";
    "Leaning against a wall" ].

(** [POSE_INSTRUCTIONS[0]] *)
Definition POSE0 : string := "Full frontal view, hands on hips".

Definition defaultWardrobe : list WardrobeItem.t :=
  [ WardrobeItem.mk "gemini-sweat" "Gemini Sweat"
      "https://raw.githubusercontent.com/ammaarreshi/app-images/refs/heads/main/gemini-sweat-2.png"
      (Some "Google Store") (Some "80% Cotton, 20% Polyester") (Some 59.99%Q);
    WardrobeItem.mk "gemini-tee" "Gemini Tee"
      "https://raw.githubusercontent.com/ammaarreshi/app-images/refs/heads/main/Gemini-tee.png"
      (Some "Google Store") (Some "100% Organic Cotton") (Some 24.99%Q);
    WardrobeItem.mk "google-cloud-jacket" "Cloud Jacket"
      "https://raw.githubusercontent.com/ammaarreshi/app-images/main/google-cloud-jacket.png"
      (Some "Google Cloud") (Some "100% Recycled Polyester") (Some 85.50%Q) ].

(** [wardrobe.find(g => g.id === garmentId)] *)
Definition findGarment (wardrobe : list WardrobeItem.t) (garmentId : string)
  : option WardrobeItem.t :=
  snd <$> list_find (fun g => WardrobeItem.id g = garmentId) wardrobe.

(** ** Service calls and suspended handlers *)

(** A request sent to the image generation service. *)
Inductive GenCall : Type :=
| CallTryOn (baseImage : string) (garmentFile : File)
    (* generateVirtualTryOnImage(baseImage, garmentFile) *)
| CallPose (baseImage : string) (poseInstruction : option string).
    (* generatePoseVariation(baseImage, poseInstruction) *)

(** How an awaited promise settles. *)
Inductive Response : Type :=
| TimerFired                 (* the 50 ms [setTimeout] of handleApplySavedOutfit *)
| FileLoaded (f : File)      (* urlToFile fulfilled *)
| Resolved (imageUrl : string)  (* a generation call fulfilled *)
| Rejected (err : string).   (* the awaited promise rejected *)

(** The local variables of [applyGarmentSequence] that are live across
    its [await]s. *)
Record ReplayFrame : Type := mkFrame {
  frWardrobe : list WardrobeItem.t;   (* [wardrobe], as the closure captured it *)
  frBaseImage : string;               (* [baseImage] *)
  frNewLayers : list OutfitLayer      (* [newLayers] *)
}.

(** The continuation of the handler that is suspended at an [await]. *)
Inductive Pending : Type :=
| AwaitTryOn (capturedIndex : nat) (garmentInfo : WardrobeItem.t)
    (* handleGarmentSelect, at generateVirtualTryOnImage *)
| AwaitPose (capturedIndex : nat) (poseInstruction : option string)
    (prevPoseIndex : nat)
    (* handlePoseSelect, at generatePoseVariation *)
| AwaitTimeout (capturedHistory : list OutfitLayer)
    (capturedWardrobe : list WardrobeItem.t) (garmentIds : list string)
    (* handleApplySavedOutfit, at the 50 ms timeout *)
| AwaitUrlToFile (fr : ReplayFrame) (garmentInfo : WardrobeItem.t)
    (rest : list string)
    (* applyGarmentSequence, at urlToFile *)
| AwaitReplayTryOn (fr : ReplayFrame) (garmentInfo : WardrobeItem.t)
    (rest : list string).
    (* applyGarmentSequence, at generateVirtualTryOnImage *)

(** ** The state of [App]

    The [useState] cells the engine reads or writes, the suspended handler
    and the log of generation requests.  The cells that only drive the
    presentation ([isSheetCollapsed], [activeTab], [saveConfirmation],
    [isShareModalOpen]) and the saved outfit index are left out. *)
Record AppState : Type := mkState {
  modelImageUrl : option string;
  outfitHistory : list OutfitLayer;
  currentOutfitIndex : nat;
  isLoading : bool;
  loadingMessage : string;
  error : option string;
  currentPoseIndex : nat;
  wardrobe : list WardrobeItem.t;
  inflight : option Pending;
  genLog : list GenCall
}.

Definition setModelImageUrl (v : option string) (st : AppState) : AppState :=
  mkState v (outfitHistory st) (currentOutfitIndex st) (isLoading st)
    (loadingMessage st) (error st) (currentPoseIndex st) (wardrobe st)
    (inflight st) (genLog st).

Definition setOutfitHistory (v : list OutfitLayer) (st : AppState) : AppState :=
  mkState (modelImageUrl st) v (currentOutfitIndex st) (isLoading st)
    (loadingMessage st) (error st) (currentPoseIndex st) (wardrobe st)
    (inflight st) (genLog st).

Definition setCurrentOutfitIndex (v : nat) (st : AppState) : AppState :=
  mkState (modelImageUrl st) (outfitHistory st) v (isLoading st)
    (loadingMessage st) (error st) (currentPoseIndex st) (wardrobe st)
    (inflight st) (genLog st).

Definition setIsLoading (v : bool) (st : AppState) : AppState :=
  mkState (modelImageUrl st) (outfitHistory st) (currentOutfitIndex st) v
    (loadingMessage st) (error st) (currentPoseIndex st) (wardrobe st)
    (inflight st) (genLog st).

Definition setLoadingMessage (v : string) (st : AppState) : AppState :=
  mkState (modelImageUrl st) (outfitHistory st) (currentOutfitIndex st)
    (isLoading st) v (error st) (currentPoseIndex st) (wardrobe st)
    (inflight st) (genLog st).

Definition setError (v : option string) (st : AppState) : AppState :=
  mkState (modelImageUrl st) (outfitHistory st) (currentOutfitIndex st)
    (isLoading st) (loadingMessage st) v (currentPoseIndex st) (wardrobe st)
    (inflight st) (genLog st).

Definition setCurrentPoseIndex (v : nat) (st : AppState) : AppState :=
  mkState (modelImageUrl st) (outfitHistory st) (currentOutfitIndex st)
    (isLoading st) (loadingMessage st) (error st) v (wardrobe st)
    (inflight st) (genLog st).

Definition setWardrobe (v : list WardrobeItem.t) (st : AppState) : AppState :=
  mkState (modelImageUrl st) (outfitHistory st) (currentOutfitIndex st)
    (isLoading st) (loadingMessage st) (error st) (currentPoseIndex st) v
    (inflight st) (genLog st).

(** Suspend the running handler at an [await]. *)
Definition suspend (p : Pending) (st : AppState) : AppState :=
  mkState (modelImageUrl st) (outfitHistory st) (currentOutfitIndex st)
    (isLoading st) (loadingMessage st) (error st) (currentPoseIndex st)
    (wardrobe st) (Some p) (genLog st).

(** The handler has run to its end: nothing is awaited any more. *)
Definition finished (st : AppState) : AppState :=
  mkState (modelImageUrl st) (outfitHistory st) (currentOutfitIndex st)
    (isLoading st) (loadingMessage st) (error st) (currentPoseIndex st)
    (wardrobe st) None (genLog st).

(** Record a request to the generation service. *)
Definition issue (c : GenCall) (st : AppState) : AppState :=
  mkState (modelImageUrl st) (outfitHistory st) (currentOutfitIndex st)
    (isLoading st) (loadingMessage st) (error st) (currentPoseIndex st)
    (wardrobe st) (inflight st) (genLog st ++ [c]).

(** The state [useState] gives the component on its first render. *)
Definition initialState : AppState :=
  mkState None [] 0 false "" None 0 defaultWardrobe None [].

(** ** Derived views ([useMemo]) *)

Definition activeOutfitLayers (st : AppState) : list OutfitLayer :=
  take (currentOutfitIndex st + 1) (outfitHistory st).

(** [.map(layer => layer.garment?.id).filter(Boolean)]: the root has no
    garment, and an empty id is falsy. *)
Definition activeGarmentIds (st : AppState) : list string :=
  omap (fun layer =>
          match garment layer with
          | Some g => if truthy (Some (WardrobeItem.id g))
                      then Some (WardrobeItem.id g) else None
          | None => None
          end)
       (activeOutfitLayers st).

Definition displayImageUrl (st : AppState) : option string :=
  if bool_decide (length (outfitHistory st) = 0) then modelImageUrl st
  else
    match outfitHistory st !! currentOutfitIndex st with
    | None => modelImageUrl st
    | Some currentLayer =>
        let poseInstruction := POSE_INSTRUCTIONS !! currentPoseIndex st in
        match getProp (poseImages currentLayer) (propKey poseInstruction) with
        | Some v => Some v
        | None => firstValue (poseImages currentLayer)
        end
    end.

Definition availablePoseKeys (st : AppState) : list string :=
  if bool_decide (length (outfitHistory st) = 0) then []
  else
    match outfitHistory st !! currentOutfitIndex st with
    | Some currentLayer => keys (poseImages currentLayer)
    | None => []
    end.

(** ** Sample data

    The garments of [wardrobe.ts], files and states on which the model is
    run in the examples below. *)

(** A stand-in for [getFriendlyErrorMessage] of [lib/utils], for running
    the model on concrete inputs. *)
Definition plainErrorMessage (err context : string) : string :=
  context ++ ". " ++ err.

Definition sweat : WardrobeItem.t :=
  WardrobeItem.mk "gemini-sweat" "Gemini Sweat"
    "https://raw.githubusercontent.com/ammaarreshi/app-images/refs/heads/main/gemini-sweat-2.png"
    (Some "Google Store") (Some "80% Cotton, 20% Polyester") (Some 59.99%Q).

Definition tee : WardrobeItem.t :=
  WardrobeItem.mk "gemini-tee" "Gemini Tee"
    "https://raw.githubusercontent.com/ammaarreshi/app-images/refs/heads/main/Gemini-tee.png"
    (Some "Google Store") (Some "100% Organic Cotton") (Some 24.99%Q).

Definition jacket : WardrobeItem.t :=
  WardrobeItem.mk "google-cloud-jacket" "Cloud Jacket"
    "https://raw.githubusercontent.com/ammaarreshi/app-images/main/google-cloud-jacket.png"
    (Some "Google Cloud") (Some "100% Recycled Polyester") (Some 85.50%Q).

(** An uploaded garment, as [handleFileChange] builds it. *)
Definition customShirt : WardrobeItem.t :=
  WardrobeItem.mk "custom-1700000000000" "shirt.png" "blob:1"
    (Some "Custom Upload") None None.

Definition shirtFile : File := mkFile "shirt.png" "image/png" "shirt-bytes".

Definition sweatFile : File := mkFile "Gemini Sweat" "image/png" "sweat-bytes".
Definition teeFile : File := mkFile "Gemini Tee" "image/png" "tee-bytes".
Definition jacketFile : File := mkFile "Cloud Jacket" "image/png" "jacket-bytes".

(** The root layer over the model image [M0]. *)
Definition rootM0 : OutfitLayer := mkLayer None [(POSE0, "M0")].

(** The state right after the model image [M0] was chosen. *)
Definition freshM0 : AppState :=
  mkState (Some "M0") [rootM0] 0 false "" None 0 defaultWardrobe None [].

(** [M0] wearing the jacket ([M1]), then the tee ([M2]); the cursor is on
    the tee. *)
Definition dressedM0 : AppState :=
  mkState (Some "M0")
    [rootM0; mkLayer (Some jacket) [(POSE0, "M1")];
     mkLayer (Some tee) [(POSE0, "M2")]]
    2 false "" None 0 defaultWardrobe None
    [CallTryOn "M0" jacketFile; CallTryOn "M1" teeFile].

(** [dressedM0] after two undos: the cursor is on the root, the jacket and
    the tee are in the redo buffer. *)
Definition undoneM0 : AppState :=
  mkState (Some "M0")
    [rootM0; mkLayer (Some jacket) [(POSE0, "M1")];
     mkLayer (Some tee) [(POSE0, "M2")]]
    0 false "" None 0 defaultWardrobe None
    [CallTryOn "M0" jacketFile; CallTryOn "M1" teeFile].

(** The jacket layer with a second pose cached, shown in that pose. *)
Definition posedM0 : AppState :=
  mkState (Some "M0")
    [rootM0;
     mkLayer (Some jacket) [(POSE0, "M1"); ("Side profile view", "M1s")]]
    1 false "" None 2 defaultWardrobe None
    [CallTryOn "M0" jacketFile; CallPose "M1" (Some "Side profile view")].

(** The jacket is on and the try-on of the tee is in flight. *)
Definition busyM0 : AppState :=
  mkState (Some "M0")
    [rootM0; mkLayer (Some jacket) [(POSE0, "M1")]]
    1 true "Adding Gemini Tee..." None 0 defaultWardrobe
    (Some (AwaitTryOn 1 tee))
    [CallTryOn "M0" jacketFile; CallTryOn "M1" teeFile].

(** [busyM0] after an undo and the fulfilment of the pending call: the tee
    layer is at position 2, the cursor at 1. *)
Definition tornM0 : AppState :=
  mkState (Some "M0")
    [rootM0; mkLayer (Some jacket) [(POSE0, "M1")];
     mkLayer (Some tee) [(POSE0, "M2")]]
    1 false "" None 0 defaultWardrobe None
    [CallTryOn "M0" jacketFile; CallTryOn "M1" teeFile].

(** ** Event handlers *)

Section Handlers.

(** [getFriendlyErrorMessage] of [lib/utils] turns a caught error and a
    context into the message shown to the user. *)
Variable getFriendlyErrorMessage : string -> string -> string.

(** The layer that AddGarment and the replay append:
    [{ garment: garmentInfo, poseImages: { [POSE_INSTRUCTIONS[0]]: newImageUrl } }] *)
Definition garmentLayer (garmentInfo : WardrobeItem.t) (newImageUrl : string)
  : OutfitLayer :=
  mkLayer (Some garmentInfo) [(POSE0, newImageUrl)].

Definition handleModelFinalized (url : string) (st : AppState) : AppState :=
  let st := setModelImageUrl (Some url) st in
  let st := setOutfitHistory [mkLayer None [(POSE0, url)]] st in
  setCurrentOutfitIndex 0 st.

(** [nextLayer && nextLayer.garment?.id === garmentInfo.id] *)
Definition isRedoHit (nextLayer : option OutfitLayer)
    (garmentInfo : WardrobeItem.t) : bool :=
  match nextLayer with
  | Some l =>
      match garment l with
      | Some g => bool_decide (WardrobeItem.id g = WardrobeItem.id garmentInfo)
      | None => false
      end
  | None => false
  end.

(** [handleGarmentSelect], up to its [await]. *)
Definition handleGarmentSelect (garmentFile : File)
    (garmentInfo : WardrobeItem.t) (st : AppState) : AppState :=
  if negb (truthy (displayImageUrl st)) || isLoading st then st
  else
    let nextLayer := outfitHistory st !! (currentOutfitIndex st + 1) in
    if isRedoHit nextLayer garmentInfo then
      let st := setCurrentOutfitIndex (currentOutfitIndex st + 1) st in
      setCurrentPoseIndex 0 st
    else
      let capturedIndex := currentOutfitIndex st in
      let baseImage := default "" (displayImageUrl st) in
      let st := setError None st in
      let st := setIsLoading true st in
      let st := setLoadingMessage
                  ("Adding " ++ WardrobeItem.name garmentInfo ++ "...") st in
      let st := issue (CallTryOn baseImage garmentFile) st in
      suspend (AwaitTryOn capturedIndex garmentInfo) st.

(** [setWardrobe(prev => prev.find(item => item.id === garmentInfo.id)
                          ? prev : [...prev, garmentInfo])] *)
Definition registerGarment (garmentInfo : WardrobeItem.t)
    (prev : list WardrobeItem.t) : list WardrobeItem.t :=
  match findGarment prev (WardrobeItem.id garmentInfo) with
  | Some _ => prev
  | None => prev ++ [garmentInfo]
  end.

(** The [finally] block shared by the handlers. *)
Definition stopLoading (st : AppState) : AppState :=
  let st := setIsLoading false st in
  let st := setLoadingMessage "" st in
  finished st.

(** [handleGarmentSelect], after its [await]. *)
Definition resumeGarmentSelect (capturedIndex : nat)
    (garmentInfo : WardrobeItem.t) (r : Response) (st : AppState) : AppState :=
  match r with
  | Resolved newImageUrl =>
      let newLayer := garmentLayer garmentInfo newImageUrl in
      let st := setOutfitHistory
                  (take (capturedIndex + 1) (outfitHistory st) ++ [newLayer]) st in
      let st := setCurrentOutfitIndex (currentOutfitIndex st + 1) st in
      let st := setCurrentPoseIndex 0 st in
      let st := setWardrobe (registerGarment garmentInfo (wardrobe st)) st in
      stopLoading st
  | Rejected err =>
      let st := setError
                  (Some (getFriendlyErrorMessage err "Failed to apply garment")) st in
      stopLoading st
  | _ => st
  end.

Definition handleRemoveLastGarment (st : AppState) : AppState :=
  if bool_decide (0 < currentOutfitIndex st) then
    let st := setCurrentOutfitIndex (currentOutfitIndex st - 1) st in
    setCurrentPoseIndex 0 st
  else st.

(** [handlePoseSelect], up to its [await].  When [outfitHistory] is not
    empty but has no layer at [currentOutfitIndex], reading
    [currentLayer.poseImages] throws inside the [async] function: its
    promise rejects and no state is written. *)
Definition handlePoseSelect (newIndex : nat) (st : AppState) : AppState :=
  if isLoading st
     || bool_decide (length (outfitHistory st) = 0)
     || bool_decide (newIndex = currentPoseIndex st)
  then st
  else
    let poseInstruction := POSE_INSTRUCTIONS !! newIndex in
    match outfitHistory st !! currentOutfitIndex st with
    | None => st
    | Some currentLayer =>
        if truthy (getProp (poseImages currentLayer) (propKey poseInstruction))
        then setCurrentPoseIndex newIndex st
        else
          let baseImageForPoseChange := firstValue (poseImages currentLayer) in
          if negb (truthy baseImageForPoseChange) then st
          else
            let capturedIndex := currentOutfitIndex st in
            let prevPoseIndex := currentPoseIndex st in
            let st := setError None st in
            let st := setIsLoading true st in
            let st := setLoadingMessage "Changing pose..." st in
            let st := setCurrentPoseIndex newIndex st in
            let st := issue (CallPose (default "" baseImageForPoseChange)
                                      poseInstruction) st in
            suspend (AwaitPose capturedIndex poseInstruction prevPoseIndex) st
    end.

(** [handlePoseSelect], after its [await].  The updater writes into the
    layer object at [capturedIndex]; without such a layer it throws a
    [TypeError], which is the result [None]. *)
Definition resumePoseSelect (capturedIndex : nat)
    (poseInstruction : option string) (prevPoseIndex : nat)
    (r : Response) (st : AppState) : option AppState :=
  match r with
  | Resolved newImageUrl =>
      match outfitHistory st !! capturedIndex with
      | Some updatedLayer =>
          let updatedLayer :=
            mkLayer (garment updatedLayer)
              (setProp (poseImages updatedLayer) (propKey poseInstruction)
                       newImageUrl) in
          let st := setOutfitHistory
                      (<[capturedIndex := updatedLayer]> (outfitHistory st)) st in
          Some (stopLoading st)
      | None => None
      end
  | Rejected err =>
      let st := setError
                  (Some (getFriendlyErrorMessage err "Failed to change pose")) st in
      let st := setCurrentPoseIndex prevPoseIndex st in
      Some (stopLoading st)
  | _ => Some st
  end.

(** The loop of [applyGarmentSequence], from the head of [garmentIds] to
    its next [await] or to the end of the handler.  An id that the
    wardrobe does not hold fails the test [if (garmentInfo)], whose
    statement has no [else]: the loop goes on with the next id. *)
Fixpoint replayLoop (fr : ReplayFrame) (garmentIds : list string)
    (st : AppState) : AppState :=
  match garmentIds with
  | [] => stopLoading st
  | garmentId :: rest =>
      match findGarment (frWardrobe fr) garmentId with
      | Some garmentInfo =>
          let st := setLoadingMessage
                      ("Applying " ++ WardrobeItem.name garmentInfo ++ "...") st in
          suspend (AwaitUrlToFile fr garmentInfo rest) st
      | None => replayLoop fr rest st
      end
  end.

(** [applyGarmentSequence], from its start; [handleApplySavedOutfit] then
    clears the busy flag. *)
Definition applyGarmentSequence (capturedHistory : list OutfitLayer)
    (capturedWardrobe : list WardrobeItem.t) (garmentIds : list string)
    (st : AppState) : AppState :=
  match capturedHistory !! 0 with
  | Some root =>
      let baseImage := getProp (poseImages root) POSE0 in
      if negb (truthy baseImage) then
        stopLoading (setError (Some "Base model image is not available.") st)
      else
        replayLoop (mkFrame capturedWardrobe (default "" baseImage) [root])
                   garmentIds st
  | None =>
      (* [outfitHistory[0]?.poseImages[...]] is [undefined] *)
      stopLoading (setError (Some "Base model image is not available.") st)
  end.

(** The [catch] of [applyGarmentSequence]. *)
Definition replayFailed (garmentInfo : WardrobeItem.t) (err : string)
    (st : AppState) : AppState :=
  let st := setError
              (Some (getFriendlyErrorMessage err
                       ("Failed to apply " ++ WardrobeItem.name garmentInfo))) st in
  stopLoading st.

(** [handleApplySavedOutfit], up to its first [await]. *)
Definition handleApplySavedOutfit (outfit : SavedOutfit.t) (st : AppState)
  : AppState :=
  if isLoading st then st
  else
    let capturedHistory := outfitHistory st in
    let capturedWardrobe := wardrobe st in
    let st := setError None st in
    let st := setIsLoading true st in
    let st := setLoadingMessage ("Loading outfit: " ++ SavedOutfit.name outfit) st in
    let st := setCurrentOutfitIndex 0 st in
    let st := setCurrentPoseIndex 0 st in
    suspend (AwaitTimeout capturedHistory capturedWardrobe
               (SavedOutfit.garmentIds outfit)) st.

(** One step of the replay, after [generateVirtualTryOnImage] fulfilled. *)
Definition resumeReplayTryOn (fr : ReplayFrame) (garmentInfo : WardrobeItem.t)
    (rest : list string) (newImageUrl : string) (st : AppState) : AppState :=
  let newLayer := garmentLayer garmentInfo newImageUrl in
  let newLayers := (frNewLayers fr ++ [newLayer])%list in
  let st := setOutfitHistory newLayers st in
  let st := setCurrentOutfitIndex (length newLayers - 1) st in
  replayLoop (mkFrame (frWardrobe fr) newImageUrl newLayers) rest st.

(** Deliver the outcome of the awaited promise to the suspended handler.
    A response of another kind than the one awaited is not delivered. *)
Definition settle (r : Response) (st : AppState) : option AppState :=
  match inflight st with
  | None => Some st
  | Some (AwaitTryOn capturedIndex garmentInfo) =>
      Some (resumeGarmentSelect capturedIndex garmentInfo r st)
  | Some (AwaitPose capturedIndex poseInstruction prevPoseIndex) =>
      resumePoseSelect capturedIndex poseInstruction prevPoseIndex r st
  | Some (AwaitTimeout capturedHistory capturedWardrobe garmentIds) =>
      match r with
      | TimerFired =>
          Some (applyGarmentSequence capturedHistory capturedWardrobe
                  garmentIds st)
      | _ => Some st
      end
  | Some (AwaitUrlToFile fr garmentInfo rest) =>
      match r with
      | FileLoaded garmentFile =>
          let st := issue (CallTryOn (frBaseImage fr) garmentFile) st in
          Some (suspend (AwaitReplayTryOn fr garmentInfo rest) st)
      | Rejected err => Some (replayFailed garmentInfo err st)
      | _ => Some st
      end
  | Some (AwaitReplayTryOn fr garmentInfo rest) =>
      match r with
      | Resolved newImageUrl =>
          Some (resumeReplayTryOn fr garmentInfo rest newImageUrl st)
      | Rejected err => Some (replayFailed garmentInfo err st)
      | _ => Some st
      end
  end.

(** ** Runs *)

Inductive Event : Type :=
| GarmentSelect (garmentFile : File) (garmentInfo : WardrobeItem.t)
| RemoveLastGarment
| PoseSelect (newIndex : nat)
| ApplySavedOutfit (outfit : SavedOutfit.t)
| Settle (r : Response).

Definition step (st : AppState) (ev : Event) : option AppState :=
  match ev with
  | GarmentSelect garmentFile garmentInfo =>
      Some (handleGarmentSelect garmentFile garmentInfo st)
  | RemoveLastGarment => Some (handleRemoveLastGarment st)
  | PoseSelect newIndex => Some (handlePoseSelect newIndex st)
  | ApplySavedOutfit outfit => Some (handleApplySavedOutfit outfit st)
  | Settle r => settle r st
  end.

Fixpoint run (st : AppState) (evs : list Event) : option AppState :=
  match evs with
  | [] => Some st
  | ev :: evs' =>
      match step st ev with
      | Some st' => run st' evs'
      | None => None
      end
  end.

(** Deliver a sequence of responses, with no user action in between. *)
Definition settleAll (rs : list Response) (st : AppState) : option AppState :=
  run st (Settle <$> rs).

(** ** The other handlers

    [handleStartOver], the saved outfit index ([handleSaveOutfit],
    [handleDeleteSavedOutfit]) and the upload of [WardrobePanel.tsx]
    ([handleFileChange]).  What the browser supplies to them is an
    argument: the answer to [prompt] and to [window.confirm], the value of
    [Date.now()], the list of chosen files and the object URL made for the
    upload. *)

(** [handleStartOver].  It writes the state cells only: a promise that is
    outstanding stays outstanding, so [inflight] is untouched. *)
Definition handleStartOver (st : AppState) : AppState :=
  let st := setModelImageUrl None st in
  let st := setOutfitHistory [] st in
  let st := setCurrentOutfitIndex 0 st in
  let st := setIsLoading false st in
  let st := setLoadingMessage "" st in
  let st := setError None st in
  let st := setCurrentPoseIndex 0 st in
  setWardrobe defaultWardrobe st.

(** [handleSaveOutfit], as a function on the [savedOutfits] cell.
    [promptAnswer] is what [prompt] returned ([None] for [null]) and [now]
    is [Date.now()]. *)
Definition handleSaveOutfit (promptAnswer : option string) (now : N)
    (st : AppState) (savedOutfits : list SavedOutfit.t) : list SavedOutfit.t :=
  if bool_decide (length (activeOutfitLayers st) <= 1)
     || negb (truthy (displayImageUrl st))
  then savedOutfits
  else if truthy promptAnswer then
    let newSavedOutfit :=
      SavedOutfit.mk ("outfit-" ++ pretty.pretty now)%string (default "" promptAnswer)
        (activeGarmentIds st) (default "" (displayImageUrl st)) in
    newSavedOutfit :: savedOutfits
  else savedOutfits.

(** [handleDeleteSavedOutfit]; [confirmed] is the answer to
    [window.confirm]. *)
Definition handleDeleteSavedOutfit (confirmed : bool) (outfitId : string)
    (savedOutfits : list SavedOutfit.t) : list SavedOutfit.t :=
  if confirmed then
    filter (fun o => SavedOutfit.id o <> outfitId) savedOutfits
  else savedOutfits.

(** [handleFileChange] of the wardrobe panel, on the panel's [error] cell
    and the state of [App]: [files] is [e.target.files], [objectUrl] the
    result of [URL.createObjectURL(file)].  [onGarmentSelect] is
    [handleGarmentSelect], called in the same tick. *)
Definition handleFileChange (files : list File) (now : N) (objectUrl : string)
    (panelError : option string) (st : AppState) : option string * AppState :=
  match files !! 0 with
  | Some file =>
      if negb (String.prefix "image/" (fileType file)) then
        (Some "Please select an image file.", st)
      else
        let customGarmentInfo :=
          WardrobeItem.mk ("custom-" ++ pretty.pretty now)%string (fileName file)
            objectUrl (Some "Custom Upload") None None in
        (panelError, handleGarmentSelect file customGarmentInfo st)
  | None => (panelError, st)
  end.

(** The responses of a replay in which every step succeeds: the timeout,
    then for each garment its file and its generated image. *)
Definition replaySteps (files : list File) (images : list string)
  : list Response :=
  concat (zip_with (fun f i => [FileLoaded f; Resolved i]) files images).

(** The garments the replay resolves, in order. *)
Definition resolveAll (wardrobe : list WardrobeItem.t) (garmentIds : list string)
  : list WardrobeItem.t :=
  omap (findGarment wardrobe) garmentIds.

(** The state of [App] between two steps of the replay, [images] being
    the images generated so far over the frame [fr] and the state [st] the
    loop started from. *)
Definition replayedSoFar (fr : ReplayFrame) (st : AppState)
    (resolved : list WardrobeItem.t) (files : list File) (images : list string)
    (st' : AppState) : Prop :=
  outfitHistory st'
  = match images with
    | [] => outfitHistory st
    | _ => (frNewLayers fr ++ zip_with garmentLayer resolved images)%list
    end
  /\ currentOutfitIndex st'
     = match images with
       | [] => currentOutfitIndex st
       | _ => length (frNewLayers fr) + length images - 1
       end
  /\ genLog st' = (genLog st ++ zip_with CallTryOn (frBaseImage fr :: images) files)%list
  /\ error st' = error st
  /\ isLoading st' = isLoading st
  /\ wardrobe st' = wardrobe st
  /\ currentPoseIndex st' = currentPoseIndex st.


Local Open Scope list_scope.

(** ** Well-formed states

    Every image the services hand out is a non-empty locator, every layer
    is created with one pose image, and the cursor stays inside the
    history.  [wfState] says so of a state; the handlers test for the
    opposite cases with JS truthiness. *)

Definition wfLayer (l : OutfitLayer) : bool :=
  truthy (firstValue (poseImages l))
  && forallb (fun kv => truthy (Some (snd kv))) (poseImages l).

Definition wfState (st : AppState) : bool :=
  bool_decide (currentOutfitIndex st < length (outfitHistory st))
  && forallb wfLayer (outfitHistory st).

(** ** Invariants of the engine *)

(** Is [r] the fulfilment of a generation call? *)
Definition isResolved (r : Response) : bool :=
  match r with
  | Resolved _ => true
  | _ => false
  end.

(** While no generation call of a replay has been fulfilled, the history
    is the one [h0] the replay started from, the cursor is on the root, and
    the layers the replay has built are the root alone. *)
Definition replayUntouched (h0 : list OutfitLayer) (st : AppState) : Prop :=
  outfitHistory st = h0
  /\ currentOutfitIndex st = 0
  /\ match inflight st with
     | None => True
     | Some (AwaitTimeout capturedHistory _ _) => capturedHistory = h0
     | Some (AwaitUrlToFile fr _ _) | Some (AwaitReplayTryOn fr _ _) =>
         exists root, h0 !! 0 = Some root /\ frNewLayers fr = [root]
     | Some (AwaitTryOn _ _) | Some (AwaitPose _ _ _) => False
     end.

(** [root] carries no garment, and the first entry of its pose cache is
    the default pose with the image [url]. *)
Definition isRoot (url : string) (root : OutfitLayer) : Prop :=
  garment root = None
  /\ exists others, poseImages root = (POSE0, url) :: others.

(** The history [h] starts with such a root. *)
Definition rootFirst (url : string) (h : list OutfitLayer) : Prop :=
  exists root, h !! 0 = Some root /\ isRoot url root.

(** What holds of the root in every state the engine reaches, the values
    captured by a suspended handler included. *)
Definition rootInvariant (url : string) (st : AppState) : Prop :=
  rootFirst url (outfitHistory st)
  /\ match inflight st with
     | None => True
     | Some p =>
         isLoading st = true
         /\ match p with
            | AwaitTryOn _ _ => True
            | AwaitPose capturedIndex poseInstruction _ =>
                capturedIndex < length (outfitHistory st)
                /\ (capturedIndex = 0 -> propKey poseInstruction <> POSE0)
            | AwaitTimeout capturedHistory _ _ => rootFirst url capturedHistory
            | AwaitUrlToFile fr _ _ | AwaitReplayTryOn fr _ _ =>
                rootFirst url (frNewLayers fr)
            end
     end.



(** ** Basic facts about the pose cache *)

Lemma truthy_Some (v : string) : truthy (Some v) = true <-> v <> "".
Proof.
  unfold truthy. rewrite negb_true_iff, bool_decide_eq_false. reflexivity.
Qed.

Lemma truthy_true (o : option string) :
  truthy o = true -> exists v, o = Some v /\ v <> "".
Proof.
  destruct o as [v|]; simpl; [|discriminate].
  intros H. exists v. split; [reflexivity|]. by apply truthy_Some.
Qed.

Lemma getProp_setProp_eq (o : PoseImages) (k v : string) :
  getProp (setProp o k v) k = Some v.
Proof.
  induction o as [|[k' v'] o IH]; simpl.
  - by rewrite bool_decide_eq_true_2.
  - destruct (bool_decide (k' = k)) eqn:E; simpl; rewrite E; auto.
Qed.

Lemma getProp_setProp_ne (o : PoseImages) (k k0 v : string) :
  k <> k0 -> getProp (setProp o k v) k0 = getProp o k0.
Proof.
  intros Hne. induction o as [|[k' v'] o IH]; simpl.
  - by rewrite bool_decide_eq_false_2.
  - destruct (bool_decide (k' = k)) eqn:E; simpl.
    + apply bool_decide_eq_true in E. subst k'.
      by rewrite !bool_decide_eq_false_2.
    + by rewrite IH.
Qed.

Lemma getProp_forallb (o : PoseImages) (k v : string) :
  forallb (fun kv => truthy (Some (snd kv))) o = true ->
  getProp o k = Some v -> v <> "".
Proof.
  induction o as [|[k' v'] o IH]; simpl; [discriminate|].
  intros [Hv Ho]%andb_true_iff.
  destruct (bool_decide (k' = k)); [|auto].
  intros [= <-]. by apply truthy_Some.
Qed.

(** In a well-formed layer a lookup is truthy exactly when the key is
    there. *)
Lemma wfLayer_truthy_getProp (l : OutfitLayer) (k : string) :
  wfLayer l = true ->
  truthy (getProp (poseImages l) k) = true <-> is_Some (getProp (poseImages l) k).
Proof.
  intros [_ Hall]%andb_true_iff. split.
  - intros (v & -> & _)%truthy_true. by eexists.
  - intros [v Hv]. rewrite Hv. apply truthy_Some. eauto using getProp_forallb.
Qed.

Lemma wfState_lookup (st : AppState) :
  wfState st = true ->
  exists l, outfitHistory st !! currentOutfitIndex st = Some l /\ wfLayer l = true.
Proof.
  intros [Hlt Hall]%andb_true_iff. apply bool_decide_eq_true in Hlt.
  destruct (lookup_lt_is_Some_2 _ _ Hlt) as [l Hl]. exists l. split; [done|].
  rewrite forallb_forall in Hall. apply Hall.
  apply list_elem_of_In. by eapply list_elem_of_lookup_2.
Qed.

(** Over a well-formed layer there is an image on display, whatever the
    active pose. *)
Lemma display_truthy_at (st : AppState) (l : OutfitLayer) :
  outfitHistory st !! currentOutfitIndex st = Some l ->
  wfLayer l = true ->
  truthy (displayImageUrl st) = true.
Proof.
  intros Hl Hwl. unfold displayImageUrl. rewrite Hl.
  assert (length (outfitHistory st) <> 0) as Hne.
  { apply lookup_lt_Some in Hl. lia. }
  rewrite bool_decide_eq_false_2 by done.
  destruct (getProp _ _) as [v|] eqn:Hg.
  - apply andb_true_iff in Hwl as [_ Hall].
    apply truthy_Some. eauto using getProp_forallb.
  - by apply andb_true_iff in Hwl as [? _].
Qed.

Lemma wfState_display (st : AppState) :
  wfState st = true -> truthy (displayImageUrl st) = true.
Proof.
  intros Hwf. destruct (wfState_lookup st Hwf) as (l & Hl & Hwl).
  eauto using display_truthy_at.
Qed.

(** ** What a response that is not a fulfilled generation can do *)

Lemma replayLoop_history (fr : ReplayFrame) (ids : list string) (st : AppState) :
  outfitHistory (replayLoop fr ids st) = outfitHistory st
  /\ currentOutfitIndex (replayLoop fr ids st) = currentOutfitIndex st
  /\ currentPoseIndex (replayLoop fr ids st) = currentPoseIndex st
  /\ genLog (replayLoop fr ids st) = genLog st
  /\ error (replayLoop fr ids st) = error st
  /\ wardrobe (replayLoop fr ids st) = wardrobe st.
Proof.
  induction ids as [|gid ids IH]; simpl; [done|].
  destruct (findGarment _ _); [done|apply IH].
Qed.

(** Only a fulfilled generation call changes the history or moves the
    cursor when a promise settles. *)
Lemma settle_not_resolved (r : Response) (st : AppState) :
  isResolved r = false ->
  exists st', settle r st = Some st'
    /\ outfitHistory st' = outfitHistory st
    /\ currentOutfitIndex st' = currentOutfitIndex st
    /\ genLog st' = genLog st ++
         match inflight st, r with
         | Some (AwaitUrlToFile fr _ _), FileLoaded f => [CallTryOn (frBaseImage fr) f]
         | _, _ => []
         end.
Proof.
  intros Hr. unfold settle.
  destruct (inflight st) as [[ci g|ci instr prev|h w ids|fr g rest|fr g rest]|];
    destruct r; try discriminate; simpl;
    try (eexists; split; [reflexivity|]; simpl; rewrite ?app_nil_r; done).
  unfold applyGarmentSequence.
  eexists; split; [reflexivity|].
  destruct (h !! 0) as [root|]; [|by rewrite app_nil_r].
  destruct (negb _); [by rewrite app_nil_r|].
  rewrite app_nil_r.
  pose proof (replayLoop_history
    {| frWardrobe := w;
       frBaseImage := default "" (getProp (poseImages root) POSE0);
       frNewLayers := [root] |} ids st) as (? & ? & ? & ? & ?).
  done.
Qed.

(** ** AddGarment *)

(** At the tip of the history there is no next layer, so nothing to redo. *)
Lemma no_redo_at_tip (st : AppState) (garmentInfo : WardrobeItem.t) :
  currentOutfitIndex st = length (outfitHistory st) - 1 ->
  isRedoHit (outfitHistory st !! (currentOutfitIndex st + 1)) garmentInfo = false.
Proof.
  intros Hi. rewrite lookup_ge_None_2; [done|lia].
Qed.

(** A new edit: the request goes out with the displayed image as its base
    and the handler waits, busy. *)
Lemma handleGarmentSelect_new_edit (st : AppState) (garmentFile : File)
    (garmentInfo : WardrobeItem.t) :
  isLoading st = false ->
  truthy (displayImageUrl st) = true ->
  isRedoHit (outfitHistory st !! (currentOutfitIndex st + 1)) garmentInfo = false ->
  handleGarmentSelect garmentFile garmentInfo st =
    mkState (modelImageUrl st) (outfitHistory st) (currentOutfitIndex st) true
      ("Adding " ++ WardrobeItem.name garmentInfo ++ "...")%string None
      (currentPoseIndex st) (wardrobe st)
      (Some (AwaitTryOn (currentOutfitIndex st) garmentInfo))
      (genLog st ++ [CallTryOn (default "" (displayImageUrl st)) garmentFile]).
Proof.
  intros Hl Hd Hr. unfold handleGarmentSelect. rewrite Hl, Hd, Hr. reflexivity.
Qed.

(** C4. Given a history of length [n] at position [n-1], an AddGarment
    whose generation request fails leaves the length at [n] and the
    position at [n-1]: the history is the one before the call, the error is
    surfaced and the busy flag is cleared. *)
Theorem addGarment_failure_keeps_history (st : AppState) (garmentFile : File)
    (garmentInfo : WardrobeItem.t) (err : string) (n : nat) :
  isLoading st = false ->
  truthy (displayImageUrl st) = true ->
  length (outfitHistory st) = n ->
  currentOutfitIndex st = n - 1 ->
  exists st',
    run st [GarmentSelect garmentFile garmentInfo; Settle (Rejected err)] = Some st'
    /\ genLog st' = genLog st ++ [CallTryOn (default "" (displayImageUrl st)) garmentFile]
    /\ outfitHistory st' = outfitHistory st
    /\ length (outfitHistory st') = n
    /\ currentOutfitIndex st' = n - 1
    /\ error st' = Some (getFriendlyErrorMessage err "Failed to apply garment")
    /\ isLoading st' = false.
Proof.
  intros Hl Hd Hn Hi. simpl.
  rewrite handleGarmentSelect_new_edit by (auto; apply no_redo_at_tip; lia).
  eexists. split; [reflexivity|]. simpl. repeat split; auto.
Qed.

(** C6. Branch overwrite.  With layers [0..n] and the cursor undone to
    [i < n], a successful AddGarment of a garment whose id is not the one
    of layer [i+1] leaves a stack of length [i+2]: the layers up to [i]
    are kept, the new layer is at position [i+1], where the cursor now is,
    and nothing of the old stack lies beyond it. *)
Theorem addGarment_branch_overwrite (st : AppState) (garmentFile : File)
    (H : WardrobeItem.t) (newImageUrl : string) (i n : nat) :
  isLoading st = false ->
  truthy (displayImageUrl st) = true ->
  length (outfitHistory st) = n + 1 ->
  currentOutfitIndex st = i ->
  i < n ->
  (forall l g, outfitHistory st !! (i + 1) = Some l -> garment l = Some g ->
               WardrobeItem.id g <> WardrobeItem.id H) ->
  exists st',
    run st [GarmentSelect garmentFile H; Settle (Resolved newImageUrl)] = Some st'
    /\ outfitHistory st' = take (i + 1) (outfitHistory st) ++ [garmentLayer H newImageUrl]
    /\ length (outfitHistory st') = i + 2
    /\ outfitHistory st' !! (i + 1) = Some (garmentLayer H newImageUrl)
    /\ (forall j, j <= i -> outfitHistory st' !! j = outfitHistory st !! j)
    /\ (forall j, i + 1 < j -> outfitHistory st' !! j = None)
    /\ currentOutfitIndex st' = i + 1
    /\ currentPoseIndex st' = 0.
Proof.
  intros Hl Hd Hn Hi Hlt Hid. simpl.
  assert (isRedoHit (outfitHistory st !! (currentOutfitIndex st + 1)) H = false)
    as Hredo.
  { rewrite Hi. unfold isRedoHit.
    destruct (outfitHistory st !! (i + 1)) as [l|] eqn:El; [|done].
    destruct (garment l) as [g|] eqn:Eg; [|done].
    apply bool_decide_eq_false_2. eauto. }
  rewrite handleGarmentSelect_new_edit by auto.
  eexists. split; [reflexivity|]. simpl. rewrite Hi.
  assert (length (take (i + 1) (outfitHistory st)) = i + 1) as Htake.
  { rewrite length_take. lia. }
  repeat split; auto.
  - rewrite length_app, Htake. simpl. lia.
  - rewrite lookup_app_r by lia. rewrite Htake.
    replace (i + 1 - (i + 1)) with 0 by lia. reflexivity.
  - intros j Hj. rewrite lookup_app_l by lia. apply lookup_take_lt. lia.
  - intros j Hj. apply lookup_ge_None_2. rewrite length_app, Htake. simpl. lia.
Qed.

(** A redo hit: no request, the cursor moves forward. *)
Lemma handleGarmentSelect_redo (st : AppState) (garmentFile : File)
    (garmentInfo : WardrobeItem.t) :
  isLoading st = false ->
  truthy (displayImageUrl st) = true ->
  isRedoHit (outfitHistory st !! (currentOutfitIndex st + 1)) garmentInfo = true ->
  handleGarmentSelect garmentFile garmentInfo st =
    mkState (modelImageUrl st) (outfitHistory st) (currentOutfitIndex st + 1)
      (isLoading st) (loadingMessage st) (error st) 0 (wardrobe st)
      (inflight st) (genLog st).
Proof.
  intros Hl Hd Hr. unfold handleGarmentSelect. rewrite Hd, Hr.
  destruct st; simpl in *; subst; reflexivity.
Qed.

Lemma isRedoHit_same_id (nextLayer : option OutfitLayer) (G G' : WardrobeItem.t) :
  WardrobeItem.id G' = WardrobeItem.id G ->
  isRedoHit nextLayer G' = isRedoHit nextLayer G.
Proof.
  intros Hid. unfold isRedoHit. by rewrite Hid.
Qed.

(** C5. Idempotence of redo.  From a well-formed idle state, after
    AddGarment(G) has succeeded, RemoveLastGarment followed by AddGarment
    of a garment with the same id issues no generation call (none is in
    flight and the log of requests is the one after the first AddGarment)
    and gives back the very state the first AddGarment(G) left. *)
Theorem addGarment_redo_idempotent (st : AppState) (garmentFile garmentFile' : File)
    (G G' : WardrobeItem.t) (newImageUrl : string) :
  wfState st = true ->
  isLoading st = false ->
  inflight st = None ->
  WardrobeItem.id G' = WardrobeItem.id G ->
  exists st1,
    run st [GarmentSelect garmentFile G; Settle (Resolved newImageUrl)] = Some st1
    /\ handleGarmentSelect garmentFile' G' (handleRemoveLastGarment st1) = st1
    /\ run st1 [RemoveLastGarment; GarmentSelect garmentFile' G'] = Some st1
    /\ inflight st1 = None
    /\ genLog (handleGarmentSelect garmentFile' G' (handleRemoveLastGarment st1))
       = genLog st1.
Proof.
  intros Hwf Hl Hin Hid.
  destruct (wfState_lookup st Hwf) as (l & Hlk & Hwl).
  pose proof (wfState_display st Hwf) as Hd.
  assert (forall st1,
    handleGarmentSelect garmentFile' G' (handleRemoveLastGarment st1) = st1 ->
    inflight st1 = None ->
    handleGarmentSelect garmentFile' G' (handleRemoveLastGarment st1) = st1
    /\ run st1 [RemoveLastGarment; GarmentSelect garmentFile' G'] = Some st1
    /\ inflight st1 = None
    /\ genLog (handleGarmentSelect garmentFile' G' (handleRemoveLastGarment st1))
       = genLog st1) as Hfin.
  { intros st1 E1 E2. simpl. rewrite E1. auto. }
  destruct (isRedoHit (outfitHistory st !! (currentOutfitIndex st + 1)) G) eqn:Hr.
  - (* the first AddGarment is itself a redo hit *)
    simpl. rewrite handleGarmentSelect_redo by auto.
    unfold settle; simpl. rewrite Hin.
    eexists. split; [reflexivity|]. apply Hfin; [|done].
    unfold handleRemoveLastGarment; simpl.
    rewrite bool_decide_eq_true_2 by lia. simpl.
    rewrite handleGarmentSelect_redo; simpl.
    + rewrite Nat.add_sub. reflexivity.
    + done.
    + eapply display_truthy_at; simpl; rewrite ?Nat.add_sub; eauto.
    + rewrite Nat.add_sub. by rewrite (isRedoHit_same_id _ G G').
  - (* the first AddGarment is a new edit *)
    simpl. rewrite handleGarmentSelect_new_edit by auto.
    eexists. split; [reflexivity|]. apply Hfin; [|done].
    unfold handleRemoveLastGarment; simpl.
    rewrite bool_decide_eq_true_2 by lia. simpl.
    pose proof (lookup_lt_Some _ _ _ Hlk) as Hlt.
    assert (length (take (currentOutfitIndex st + 1) (outfitHistory st))
            = currentOutfitIndex st + 1) as Htake.
    { rewrite length_take. lia. }
    rewrite handleGarmentSelect_redo; simpl.
    + rewrite Nat.add_sub. reflexivity.
    + done.
    + eapply display_truthy_at; simpl; rewrite ?Nat.add_sub; [|exact Hwl].
      rewrite lookup_app_l by lia. rewrite lookup_take_lt by lia. done.
    + rewrite Nat.add_sub. rewrite lookup_app_r by lia. rewrite Htake.
      replace (currentOutfitIndex st + 1 - (currentOutfitIndex st + 1)) with 0 by lia.
      simpl. by apply bool_decide_eq_true_2.
Qed.

(** ** SelectPose *)

(** C8. SelectPose on an idle state, for a pose other than the active one,
    over a well-formed current layer.  If the pose cache of the layer
    holds the pose, the pointer switches at once and no generation call is
    issued (the log of requests is unchanged and nothing is awaited that
    was not before).  Otherwise exactly one call is issued, and its base
    is the representative image of the layer, the first entry of its pose
    cache, whatever image is on display. *)
Theorem selectPose_hit_or_miss (st : AppState) (newIndex : nat)
    (currentLayer : OutfitLayer) :
  isLoading st = false ->
  newIndex <> currentPoseIndex st ->
  outfitHistory st !! currentOutfitIndex st = Some currentLayer ->
  wfLayer currentLayer = true ->
  let poseInstruction := POSE_INSTRUCTIONS !! newIndex in
  (is_Some (getProp (poseImages currentLayer) (propKey poseInstruction)) ->
     handlePoseSelect newIndex st = setCurrentPoseIndex newIndex st
     /\ currentPoseIndex (handlePoseSelect newIndex st) = newIndex
     /\ genLog (handlePoseSelect newIndex st) = genLog st
     /\ inflight (handlePoseSelect newIndex st) = inflight st
     /\ isLoading (handlePoseSelect newIndex st) = false)
  /\ (getProp (poseImages currentLayer) (propKey poseInstruction) = None ->
     exists representative,
       firstValue (poseImages currentLayer) = Some representative
       /\ genLog (handlePoseSelect newIndex st)
          = genLog st ++ [CallPose representative poseInstruction]
       /\ inflight (handlePoseSelect newIndex st)
          = Some (AwaitPose (currentOutfitIndex st) poseInstruction
                    (currentPoseIndex st))).
Proof.
  intros Hl Hne Hlk Hwl poseInstruction.
  assert (length (outfitHistory st) <> 0) as Hlen.
  { apply lookup_lt_Some in Hlk. lia. }
  unfold handlePoseSelect. rewrite Hl, Hlk. fold poseInstruction.
  rewrite !bool_decide_eq_false_2 by done. simpl.
  split.
  - intros Hhit. apply (wfLayer_truthy_getProp _ _ Hwl) in Hhit.
    rewrite Hhit. simpl. by rewrite Hl.
  - intros Hmiss. rewrite Hmiss. simpl.
    pose proof Hwl as [Hrep _]%andb_true_iff. rewrite Hrep. simpl.
    apply truthy_true in Hrep as (rep & Hrep & _).
    exists rep. rewrite Hrep. auto.
Qed.

(** C9. A SelectPose that misses the cache sets the active pose pointer
    to the new pose before the call returns; when the call fails the
    pointer is back at its value before the call, the history, and with
    it the pose cache of the current layer, is the one before the call (no
    entry under the new pose), and the error is surfaced. *)
Theorem selectPose_failure_reverts (st : AppState) (newIndex : nat)
    (currentLayer : OutfitLayer) (err : string) :
  isLoading st = false ->
  newIndex <> currentPoseIndex st ->
  outfitHistory st !! currentOutfitIndex st = Some currentLayer ->
  wfLayer currentLayer = true ->
  getProp (poseImages currentLayer) (propKey (POSE_INSTRUCTIONS !! newIndex)) = None ->
  currentPoseIndex (handlePoseSelect newIndex st) = newIndex
  /\ isLoading (handlePoseSelect newIndex st) = true
  /\ exists st',
       run st [PoseSelect newIndex; Settle (Rejected err)] = Some st'
       /\ currentPoseIndex st' = currentPoseIndex st
       /\ outfitHistory st' = outfitHistory st
       /\ outfitHistory st' !! currentOutfitIndex st' = Some currentLayer
       /\ getProp (poseImages currentLayer)
            (propKey (POSE_INSTRUCTIONS !! newIndex)) = None
       /\ error st' = Some (getFriendlyErrorMessage err "Failed to change pose")
       /\ isLoading st' = false.
Proof.
  intros Hl Hne Hlk Hwl Hmiss.
  assert (length (outfitHistory st) <> 0) as Hlen.
  { apply lookup_lt_Some in Hlk. lia. }
  pose proof Hwl as [Hrep _]%andb_true_iff.
  assert (handlePoseSelect newIndex st =
    mkState (modelImageUrl st) (outfitHistory st) (currentOutfitIndex st) true
      "Changing pose..." None newIndex (wardrobe st)
      (Some (AwaitPose (currentOutfitIndex st) (POSE_INSTRUCTIONS !! newIndex)
               (currentPoseIndex st)))
      (genLog st ++ [CallPose (default "" (firstValue (poseImages currentLayer)))
                       (POSE_INSTRUCTIONS !! newIndex)])) as Hstart.
  { unfold handlePoseSelect. rewrite Hl, Hlk, Hmiss, Hrep.
    rewrite !bool_decide_eq_false_2 by done. reflexivity. }
  simpl. rewrite Hstart. simpl.
  repeat split; auto.
  eexists. split; [reflexivity|]. simpl. repeat split; auto.
Qed.

(** ** ApplySavedOutfit *)

(** C7. Replay of a saved outfit with the garment ids [A; B], both known
    to the wardrobe, every call succeeding, over a root whose default pose
    image is [M0].  Whatever lies in the redo buffer [redo] (nothing, from
    a fresh root), two generation calls are issued, the first on the root
    image and the second on the image the first produced, and the history
    becomes the three layers root, A on the root, B on A, with the cursor
    on the last one. *)
Theorem replay_two_garments (st : AppState) (outfit : SavedOutfit.t)
    (A B : string) (gA gB : WardrobeItem.t) (fileA fileB : File)
    (imageA imageB M0 : string) (root : OutfitLayer) (redo : list OutfitLayer) :
  isLoading st = false ->
  outfitHistory st = root :: redo ->
  getProp (poseImages root) POSE0 = Some M0 ->
  M0 <> "" ->
  SavedOutfit.garmentIds outfit = [A; B] ->
  findGarment (wardrobe st) A = Some gA ->
  findGarment (wardrobe st) B = Some gB ->
  exists st',
    run st [ApplySavedOutfit outfit; Settle TimerFired;
            Settle (FileLoaded fileA); Settle (Resolved imageA);
            Settle (FileLoaded fileB); Settle (Resolved imageB)] = Some st'
    /\ outfitHistory st' = [root; garmentLayer gA imageA; garmentLayer gB imageB]
    /\ currentOutfitIndex st' = 2
    /\ genLog st' = genLog st ++ [CallTryOn M0 fileA; CallTryOn imageA fileB]
    /\ error st' = None
    /\ isLoading st' = false
    /\ inflight st' = None.
Proof.
  intros Hl Hh HM0 Hne Hids HA HB.
  apply truthy_Some in Hne.
  unfold run, step, handleApplySavedOutfit. rewrite Hl, Hids.
  unfold settle at 1; simpl. unfold applyGarmentSequence.
  rewrite Hh; simpl. rewrite HM0, Hne; simpl. rewrite HA; simpl.
  unfold resumeReplayTryOn; simpl. rewrite HB; simpl.
  eexists. split; [reflexivity|]. simpl.
  rewrite <- app_assoc. repeat split; auto.
Qed.

(** C1, as the code has it.  The replay does not stop at a garment id the
    wardrobe cannot resolve: a run of such ids is skipped, with no error
    set, no request issued and the history left as it is, and the loop goes
    on with the ids that follow. *)
Theorem replay_skips_unknown_ids (fr : ReplayFrame) (unknown rest : list string)
    (st : AppState) :
  Forall (fun garmentId => findGarment (frWardrobe fr) garmentId = None) unknown ->
  replayLoop fr (unknown ++ rest) st = replayLoop fr rest st
  /\ error (replayLoop fr (unknown ++ rest) st) = error st
  /\ genLog (replayLoop fr (unknown ++ rest) st) = genLog st
  /\ outfitHistory (replayLoop fr (unknown ++ rest) st) = outfitHistory st.
Proof.
  intros Hall.
  pose proof (replayLoop_history fr (unknown ++ rest) st) as (Hh & _ & _ & Hg & He & _).
  repeat split; auto. clear Hh Hg He.
  induction Hall as [|garmentId unknown Hnone _ IH]; simpl; [done|].
  by rewrite Hnone.
Qed.

Lemma replayLoop_untouched (h0 : list OutfitLayer) (fr : ReplayFrame)
    (ids : list string) (st : AppState) (root : OutfitLayer) :
  h0 !! 0 = Some root ->
  frNewLayers fr = [root] ->
  outfitHistory st = h0 ->
  currentOutfitIndex st = 0 ->
  replayUntouched h0 (replayLoop fr ids st).
Proof.
  intros Hroot Hfr Hh Hi.
  induction ids as [|gid ids IH]; simpl.
  - by repeat split.
  - destruct (findGarment _ _); [|done].
    repeat split; simpl; eauto.
Qed.

Lemma settle_untouched (h0 : list OutfitLayer) (r : Response) (st : AppState) :
  isResolved r = false ->
  replayUntouched h0 st ->
  exists st', settle r st = Some st' /\ replayUntouched h0 st'.
Proof.
  intros Hr (Hh & Hi & Hp). unfold settle.
  destruct (inflight st) as [[ci g|ci instr prev|h w ids|fr g rest|fr g rest]|] eqn:Ein;
    try done; destruct r; try discriminate;
    try (eexists; split; [reflexivity|]; repeat split; simpl; rewrite ?Ein; done).
  eexists; split; [reflexivity|]. subst h.
  unfold applyGarmentSequence.
  destruct (h0 !! 0) as [root|] eqn:Eroot; [|by repeat split].
  destruct (negb _); [by repeat split|].
  by eapply replayLoop_untouched.
Qed.

Lemma settleAll_untouched (h0 : list OutfitLayer) (rs : list Response)
    (st : AppState) :
  forallb (fun r => negb (isResolved r)) rs = true ->
  replayUntouched h0 st ->
  exists st', settleAll rs st = Some st' /\ replayUntouched h0 st'.
Proof.
  unfold settleAll. revert st.
  induction rs as [|r rs IH]; intros st Hrs Hst; simpl.
  - eauto.
  - apply andb_true_iff in Hrs as [Hr Hrs]. apply negb_true_iff in Hr.
    destruct (settle_untouched h0 r st Hr Hst) as (st1 & -> & Hst1).
    eauto.
Qed.

(** C10. ApplySavedOutfit replaces the history on its first successful
    step.  As long as no generation call has been fulfilled (the list is
    empty, no id is known, the root image is missing or a call failed), the
    history array is the one before the call, with the cursor reset to 0.
    When the first generation call is fulfilled, the history becomes the
    root followed by the new layer alone: every other layer that was there
    before the call, the redo buffer included, is gone. *)
Theorem replay_replaces_history_on_first_success (st : AppState)
    (outfit : SavedOutfit.t) (rs : list Response) :
  isLoading st = false ->
  forallb (fun r => negb (isResolved r)) rs = true ->
  exists st1,
    settleAll rs (handleApplySavedOutfit outfit st) = Some st1
    /\ outfitHistory st1 = outfitHistory st
    /\ currentOutfitIndex st1 = 0
    /\ forall fr garmentInfo rest newImageUrl,
         inflight st1 = Some (AwaitReplayTryOn fr garmentInfo rest) ->
         exists root st2,
           outfitHistory st !! 0 = Some root
           /\ settle (Resolved newImageUrl) st1 = Some st2
           /\ outfitHistory st2 = [root; garmentLayer garmentInfo newImageUrl]
           /\ currentOutfitIndex st2 = 1.
Proof.
  intros Hl Hrs.
  assert (replayUntouched (outfitHistory st) (handleApplySavedOutfit outfit st))
    as Hstart.
  { unfold handleApplySavedOutfit. rewrite Hl. by repeat split. }
  destruct (settleAll_untouched _ rs _ Hrs Hstart) as (st1 & Hrun & Hh & Hi & Hp).
  exists st1. repeat split; auto.
  intros fr g rest img Ein. rewrite Ein in Hp. destruct Hp as (root & Hroot & Hfr).
  exists root. eexists. split; [done|].
  unfold settle. rewrite Ein. split; [reflexivity|].
  unfold resumeReplayTryOn. rewrite Hfr.
  match goal with
  | |- context [replayLoop ?f ?i ?s] =>
      pose proof (replayLoop_history f i s) as (-> & -> & _)
  end.
  done.
Qed.

(** ** The root layer *)

Lemma rootFirst_app (url : string) (h more : list OutfitLayer) :
  rootFirst url h -> rootFirst url (h ++ more).
Proof.
  intros (root & Hroot & Hr). exists root. split; [|done].
  by apply lookup_app_l_Some.
Qed.

Lemma rootFirst_take (url : string) (h : list OutfitLayer) (n : nat) :
  rootFirst url h -> rootFirst url (take (n + 1) h).
Proof.
  intros (root & Hroot & Hr). exists root. split; [|done].
  rewrite lookup_take_lt by lia. done.
Qed.

Lemma rootFirst_setProp (url : string) (h : list OutfitLayer) (ci : nat)
    (l : OutfitLayer) (k v : string) :
  rootFirst url h ->
  h !! ci = Some l ->
  (ci = 0 -> k <> POSE0) ->
  rootFirst url (<[ci := mkLayer (garment l) (setProp (poseImages l) k v)]> h).
Proof.
  intros (root & Hroot & Hg & others & Ho) Hl Hk.
  destruct ci as [|ci].
  - assert (l = root) as -> by congruence.
    eexists. split.
    + apply list_lookup_insert_eq. by eapply lookup_lt_Some.
    + split; [done|]. simpl. rewrite Ho. simpl.
      rewrite bool_decide_eq_false_2 by (intros E; by apply Hk). eauto.
  - exists root. split; [|by split; eauto].
    rewrite list_lookup_insert_ne by lia. done.
Qed.

Lemma replayLoop_rootInvariant (url : string) (fr : ReplayFrame)
    (ids : list string) (st : AppState) :
  rootFirst url (outfitHistory st) ->
  rootFirst url (frNewLayers fr) ->
  isLoading st = true ->
  rootInvariant url (replayLoop fr ids st).
Proof.
  intros Hh Hfr Hl. induction ids as [|gid ids IH]; simpl.
  - by split.
  - destruct (findGarment _ _); [|done]. by repeat split.
Qed.

Lemma handler_rootInvariant (url : string) (st : AppState) (ev : Event) :
  rootInvariant url st ->
  exists st', step st ev = Some st' /\ rootInvariant url st'.
Proof.
  intros Hinv. pose proof Hinv as [Hh Hp].
  assert (isLoading st = false -> inflight st = None) as Hidle.
  { intros Hl. destruct (inflight st); [|done]. destruct Hp. congruence. }
  destruct ev as [f g| |newIndex|outfit|r]; simpl.
  - (* GarmentSelect *)
    eexists; split; [reflexivity|]. unfold handleGarmentSelect.
    destruct (negb _ || isLoading st) eqn:Eguard; [exact Hinv|].
    apply orb_false_iff in Eguard as [_ Hl]. specialize (Hidle Hl).
    destruct (isRedoHit _ _); split; simpl; rewrite ?Hidle; done.
  - (* RemoveLastGarment *)
    eexists; split; [reflexivity|]. unfold handleRemoveLastGarment.
    destruct (bool_decide _); [|exact Hinv]. split; simpl; done.
  - (* PoseSelect *)
    eexists; split; [reflexivity|]. unfold handlePoseSelect.
    destruct (isLoading st) eqn:Hl; simpl; [exact Hinv|]. specialize (Hidle eq_refl).
    destruct (bool_decide (length _ = 0) || _); [exact Hinv|].
    destruct (outfitHistory st !! currentOutfitIndex st) as [l|] eqn:Hlk; [|exact Hinv].
    destruct (truthy (getProp _ _)) eqn:Ehit; [split; simpl; rewrite ?Hidle; done|].
    destruct (negb _) eqn:Erep; [exact Hinv|]. apply negb_false_iff in Erep.
    split; [done|]. simpl. split; [done|]. split.
    + by eapply lookup_lt_Some.
    + intros Hci Hkey. rewrite Hci in Hlk.
      destruct Hh as (root & Hroot & _ & others & Ho).
      assert (l = root) as -> by congruence.
      rewrite Ho in Ehit, Erep. rewrite Hkey in Ehit. simpl in Ehit, Erep.
      congruence.
  - (* ApplySavedOutfit *)
    eexists; split; [reflexivity|]. unfold handleApplySavedOutfit.
    destruct (isLoading st) eqn:Hl; [exact Hinv|]. by repeat split.
  - (* a promise settles *)
    unfold settle.
    destruct (inflight st) as [[ci g|ci instr prev|h w ids|fr g rest|fr g rest]|] eqn:Ein.
    + destruct Hp as [Hl _]. eexists; split; [reflexivity|].
      destruct r; simpl; try exact Hinv; [|by split].
      split; simpl; [|done]. by apply rootFirst_app, rootFirst_take.
    + destruct Hp as (Hl & Hlt & Hkey).
      destruct r as [|f|img|err]; simpl;
        try (eexists; split; [reflexivity|]; first [exact Hinv|by split]).
      destruct (lookup_lt_is_Some_2 _ _ Hlt) as [l Hlk]. rewrite Hlk.
      eexists; split; [reflexivity|]. split; simpl; [|done].
      by apply rootFirst_setProp.
    + destruct Hp as (Hl & Hcap).
      destruct r; simpl;
        try (eexists; split; [reflexivity|]; first [exact Hinv|by split]).
      eexists; split; [reflexivity|]. unfold applyGarmentSequence.
      destruct Hcap as (root & Hroot & Hr). rewrite Hroot.
      destruct (negb _); [by split|].
      apply replayLoop_rootInvariant; simpl; [done| |done].
      exists root. by split.
    + destruct Hp as (Hl & Hfr).
      destruct r; simpl;
        try (eexists; split; [reflexivity|]; first [exact Hinv|by split]).
    + destruct Hp as (Hl & Hfr).
      destruct r as [|f|img|err]; simpl;
        try (eexists; split; [reflexivity|]; first [exact Hinv|by split]).
      eexists; split; [reflexivity|]. unfold resumeReplayTryOn.
      apply replayLoop_rootInvariant; simpl; try done; by apply rootFirst_app.
    + eexists; split; [reflexivity|]. split; [done|]. by rewrite Ein.
Qed.

Lemma run_rootInvariant (url : string) (evs : list Event) (st : AppState) :
  rootInvariant url st ->
  exists st', run st evs = Some st' /\ rootInvariant url st'.
Proof.
  revert st. induction evs as [|ev evs IH]; intros st Hst; simpl.
  - eauto.
  - destruct (handler_rootInvariant url st ev Hst) as (st1 & -> & Hst1). eauto.
Qed.

(** C3, as the code has it.  After the model image [baseImage] is
    finalized with no call in flight, every sequence of AddGarment,
    RemoveLastGarment, SelectPose and ApplySavedOutfit calls and of service
    responses runs through, and afterwards the layer at position 0 has no
    garment and its pose cache holds the default pose, as its first entry,
    with [baseImage] as its image.  (A pose change on the root adds further
    entries after it.) *)
Theorem root_layer_invariant (st0 : AppState) (baseImage : string)
    (evs : list Event) :
  inflight st0 = None ->
  exists st root,
    run (handleModelFinalized baseImage st0) evs = Some st
    /\ outfitHistory st !! 0 = Some root
    /\ garment root = None
    /\ getProp (poseImages root) POSE0 = Some baseImage
    /\ firstValue (poseImages root) = Some baseImage.
Proof.
  intros Hin.
  assert (rootInvariant baseImage (handleModelFinalized baseImage st0)) as Hstart.
  { split; simpl; [|by rewrite Hin]. eexists. split; [reflexivity|].
    split; [done|]. by eexists. }
  destruct (run_rootInvariant _ evs _ Hstart)
    as (st & Hrun & (root & Hroot & Hg & others & Ho) & _).
  exists st, root. rewrite Ho. simpl. auto.
Qed.

(** ** The busy flag *)

(** The three asynchronous handlers test [isLoading] first and return. *)
Lemma gated_handlers_noop_while_busy (st : AppState) :
  isLoading st = true ->
  (forall garmentFile garmentInfo,
      handleGarmentSelect garmentFile garmentInfo st = st)
  /\ (forall newIndex, handlePoseSelect newIndex st = st)
  /\ (forall outfit, handleApplySavedOutfit outfit st = st).
Proof.
  intros Hl. repeat split; intros.
  - unfold handleGarmentSelect. rewrite Hl. by rewrite orb_true_r.
  - unfold handlePoseSelect. by rewrite Hl.
  - unfold handleApplySavedOutfit. by rewrite Hl.
Qed.

(** C2, on the code.  [handleRemoveLastGarment] does not test the busy
    flag.  With the jacket on and the try-on of the tee in flight (busy),
    RemoveLastGarment moves the cursor from 1 to 0; when the call then
    succeeds the tee layer is appended at position 2 while the cursor
    advances to 1 only. *)
Theorem removeLastGarment_ignores_busy_flag :
  run freshM0 [GarmentSelect jacketFile jacket; Settle (Resolved "M1");
               GarmentSelect teeFile tee] = Some busyM0
  /\ isLoading busyM0 = true
  /\ inflight busyM0 = Some (AwaitTryOn 1 tee)
  /\ currentOutfitIndex busyM0 = 1
  /\ currentOutfitIndex (handleRemoveLastGarment busyM0) = 0
  /\ handleRemoveLastGarment busyM0 <> busyM0
  /\ run busyM0 [RemoveLastGarment; Settle (Resolved "M2")] = Some tornM0
  /\ length (outfitHistory tornM0) = 3
  /\ currentOutfitIndex tornM0 = 1.
Proof.
  split; [vm_compute; reflexivity|].
  do 4 (split; [reflexivity|]).
  split; [intros E; apply (f_equal currentOutfitIndex) in E; discriminate E|].
  split; [vm_compute; reflexivity|].
  split; reflexivity.
Qed.

(** ** Well-formedness is kept

    [wfState] holds of every state the engine reaches from a truthy model
    image, as long as the generation service answers with non-empty image
    locators. *)

Lemma forallb_Forall {A : Type} (f : A -> bool) (l : list A) :
  forallb f l = true <-> Forall (fun x => f x = true) l.
Proof.
  rewrite forallb_forall, Forall_forall.
  split; intros H x Hx; by apply H.
Qed.

Lemma forallb_lookup {A : Type} (f : A -> bool) (l : list A) (i : nat) (x : A) :
  forallb f l = true -> l !! i = Some x -> f x = true.
Proof.
  intros Hall%forallb_Forall Hx.
  exact (Forall_lookup_1 (fun y => f y = true) l i x Hall Hx).
Qed.




Lemma wfState_elim (st : AppState) :
  wfState st = true ->
  currentOutfitIndex st < length (outfitHistory st)
  /\ forallb wfLayer (outfitHistory st) = true.
Proof.
  intros [Hlt Hall]%andb_true_iff. by apply bool_decide_eq_true in Hlt.
Qed.





(** ** The garment registry *)

Lemma findGarment_cons (g : WardrobeItem.t) (w : list WardrobeItem.t)
    (garmentId : string) :
  findGarment (g :: w) garmentId
  = if bool_decide (WardrobeItem.id g = garmentId) then Some g
    else findGarment w garmentId.
Proof.
  unfold findGarment. simpl. destruct (decide _) as [E|E].
  - by rewrite bool_decide_eq_true_2.
  - rewrite bool_decide_eq_false_2 by done.
    by destruct (list_find _ w) as [[i x]|].
Qed.

Lemma findGarment_Some_id (w : list WardrobeItem.t) (garmentId : string)
    (g : WardrobeItem.t) :
  findGarment w garmentId = Some g -> WardrobeItem.id g = garmentId /\ g ∈ w.
Proof.
  induction w as [|x w IH]; [done|]. rewrite findGarment_cons.
  destruct (bool_decide _) eqn:E.
  - intros [= <-]. apply bool_decide_eq_true in E. split; [done|]. by left.
  - intros [? ?]%IH. split; [done|]. by right.
Qed.

Lemma findGarment_None (w : list WardrobeItem.t) (garmentId : string) :
  findGarment w garmentId = None <-> garmentId ∉ map WardrobeItem.id w.
Proof.
  induction w as [|x w IH]; simpl.
  - split; [intros _ Hin; by apply elem_of_nil in Hin|done].
  - rewrite findGarment_cons, not_elem_of_cons.
    destruct (bool_decide _) eqn:E.
    + apply bool_decide_eq_true in E. split; [done|]. intros [Hne _]. by destruct Hne.
    + apply bool_decide_eq_false in E. rewrite IH. split; [|by intros [_ ?]].
      intros Hn. split; [|done]. intros ->. by apply E.
Qed.

Lemma findGarment_app_l (w more : list WardrobeItem.t) (garmentId : string)
    (g : WardrobeItem.t) :
  findGarment w garmentId = Some g -> findGarment (w ++ more) garmentId = Some g.
Proof.
  induction w as [|x w IH]; [done|]. simpl. rewrite !findGarment_cons.
  destruct (bool_decide _); auto.
Qed.

Lemma findGarment_snoc_new (w : list WardrobeItem.t) (g : WardrobeItem.t) :
  findGarment w (WardrobeItem.id g) = None ->
  findGarment (w ++ [g]) (WardrobeItem.id g) = Some g.
Proof.
  induction w as [|x w IH]; simpl; intros Hnone.
  - rewrite findGarment_cons. by rewrite bool_decide_eq_true_2.
  - rewrite findGarment_cons in Hnone |- *.
    destruct (bool_decide _); [done|]. by apply IH.
Qed.

(** X1. [registerGarment] keeps the registry a set keyed by id: ids stay
    pairwise distinct, an id that resolved keeps resolving to the same
    garment (the first insertion wins), the garment's id resolves
    afterwards, and registering twice is registering once. *)
Theorem registerGarment_keeps_registry (garmentInfo : WardrobeItem.t)
    (prev : list WardrobeItem.t) :
  NoDup (map WardrobeItem.id prev) ->
  NoDup (map WardrobeItem.id (registerGarment garmentInfo prev))
  /\ (forall garmentId g, findGarment prev garmentId = Some g ->
        findGarment (registerGarment garmentInfo prev) garmentId = Some g)
  /\ is_Some (findGarment (registerGarment garmentInfo prev)
                (WardrobeItem.id garmentInfo))
  /\ registerGarment garmentInfo (registerGarment garmentInfo prev)
     = registerGarment garmentInfo prev
  /\ prev `prefix_of` registerGarment garmentInfo prev.
Proof.
  intros Hnd.
  destruct (findGarment prev (WardrobeItem.id garmentInfo)) as [g0|] eqn:Efind.
  - assert (registerGarment garmentInfo prev = prev) as ->.
    { unfold registerGarment. by rewrite Efind. }
    assert (registerGarment garmentInfo prev = prev) as ->.
    { unfold registerGarment. by rewrite Efind. }
    rewrite Efind. repeat split; auto.
  - assert (registerGarment garmentInfo prev = prev ++ [garmentInfo]) as ->.
    { unfold registerGarment. by rewrite Efind. }
    assert (findGarment (prev ++ [garmentInfo]) (WardrobeItem.id garmentInfo)
            = Some garmentInfo) as Hnew.
    { clear Hnd. induction prev as [|x prev IH]; simpl.
      - rewrite findGarment_cons. by rewrite bool_decide_eq_true_2.
      - rewrite findGarment_cons in Efind |- *.
        destruct (bool_decide _); [done|]. by apply IH. }
    repeat split.
    + rewrite map_app. simpl. apply list.NoDup_app. split; [done|]. split.
      * intros x Hx [->|Hin]%elem_of_cons; [|by apply elem_of_nil in Hin].
        by apply findGarment_None in Efind.
      * apply NoDup_singleton.
    + intros garmentId g. apply findGarment_app_l.
    + by eexists.
    + unfold registerGarment. by rewrite Hnew.
    + by apply prefix_app_r.
Qed.

(** X2. No run of the engine takes a garment out of the registry or lets
    two entries share an id: the wardrobe after a run extends the wardrobe
    before it, and its ids are pairwise distinct if they were. *)
Theorem run_extends_wardrobe (evs : list Event) (st st' : AppState) :
  run st evs = Some st' ->
  wardrobe st `prefix_of` wardrobe st'
  /\ (NoDup (map WardrobeItem.id (wardrobe st)) ->
      NoDup (map WardrobeItem.id (wardrobe st'))).
Proof.
  revert st. induction evs as [|ev evs IH]; intros st; simpl.
  - intros [= <-]. done.
  - destruct (step st ev) as [st1|] eqn:Estep; [|done]. intros Hrun.
    destruct (IH _ Hrun) as [Hpre Hnd].
    assert (wardrobe st1 = wardrobe st
            \/ exists g, wardrobe st1 = registerGarment g (wardrobe st)) as Hst1.
    { destruct ev as [f g| |newIndex|outfit|r]; simpl in Estep.
      - injection Estep as <-. left. unfold handleGarmentSelect.
        destruct (_ || _); [done|]. by destruct (isRedoHit _ _).
      - injection Estep as <-. left. unfold handleRemoveLastGarment.
        by destruct (bool_decide _).
      - injection Estep as <-. left. unfold handlePoseSelect.
        destruct (_ || _); [done|].
        destruct (outfitHistory st !! currentOutfitIndex st); [|done].
        destruct (truthy _); [done|]. by destruct (negb _).
      - injection Estep as <-. left. unfold handleApplySavedOutfit.
        by destruct (isLoading st).
      - unfold settle in Estep.
        destruct (inflight st) as [[ci g|ci instr prev|h w ids|fr g rest|fr g rest]|].
        + injection Estep as <-. destruct r; simpl; eauto.
        + destruct r; simpl in Estep; try (injection Estep as <-; by left).
          destruct (outfitHistory st !! ci); [|done].
          injection Estep as <-. by left.
        + destruct r; injection Estep as <-; try by left.
          left. unfold applyGarmentSequence.
          destruct (h !! 0); [|done]. destruct (negb _); [done|].
          by destruct (replayLoop_history
            (mkFrame w (default "" (getProp (poseImages o) POSE0)) [o]) ids st)
            as (_ & _ & _ & _ & _ & ->).
        + destruct r; injection Estep as <-; by left.
        + destruct r as [|f|img|err]; injection Estep as <-; try by left.
          left. unfold resumeReplayTryOn.
          match goal with
          | |- context [replayLoop ?f ?i ?s] =>
              by destruct (replayLoop_history f i s) as (_ & _ & _ & _ & _ & ->)
          end.
        + injection Estep as <-. by left. }
    destruct Hst1 as [E|[g E]].
    + rewrite <- E. done.
    + split.
      * etrans; [|exact Hpre]. rewrite E.
        unfold registerGarment. destruct (findGarment _ _); [done|].
        by apply prefix_app_r.
      * intros Hnd0. apply Hnd. rewrite E.
        unfold registerGarment. destruct (findGarment _ _) eqn:Efind; [done|].
        rewrite map_app. simpl. apply list.NoDup_app. split; [done|]. split.
        -- intros x Hx [->|Hin]%elem_of_cons; [|by apply elem_of_nil in Hin].
           by apply findGarment_None in Efind.
        -- apply NoDup_singleton.
Qed.

(** ** The busy flag and the history over whole runs *)



(** X4. Layers are created and dropped only when a generation call is
    fulfilled: every user action and every other response leaves the
    history array and the registry as they are. *)
Theorem history_changes_only_on_fulfilment (st : AppState) (ev : Event) :
  (forall imageUrl, ev <> Settle (Resolved imageUrl)) ->
  exists st', step st ev = Some st'
    /\ outfitHistory st' = outfitHistory st
    /\ wardrobe st' = wardrobe st.
Proof.
  intros Hev. destruct ev as [f g| |newIndex|outfit|r]; simpl.
  - eexists; split; [reflexivity|]. unfold handleGarmentSelect.
    destruct (_ || _); [done|]. by destruct (isRedoHit _ _).
  - eexists; split; [reflexivity|]. unfold handleRemoveLastGarment.
    by destruct (bool_decide _).
  - eexists; split; [reflexivity|]. unfold handlePoseSelect.
    destruct (_ || _); [done|].
    destruct (outfitHistory st !! currentOutfitIndex st); [|done].
    destruct (truthy _); [done|]. by destruct (negb _).
  - eexists; split; [reflexivity|]. unfold handleApplySavedOutfit.
    by destruct (isLoading st).
  - assert (isResolved r = false) as Hr.
    { destruct r; try done. by destruct (Hev imageUrl). }
    destruct (settle_not_resolved r st Hr) as (st' & Hs & Hh & _).
    exists st'. split; [done|]. split; [done|].
    unfold settle in Hs.
    destruct (inflight st) as [[ci g|ci instr prev|h w ids|fr g rest|fr g rest]|];
      destruct r; try discriminate; try (by injection Hs as <-).
    injection Hs as <-. unfold applyGarmentSequence.
    destruct (h !! 0); [|done]. destruct (negb _); [done|].
    match goal with
    | |- context [replayLoop ?f ?i ?s] =>
        by destruct (replayLoop_history f i s) as (_ & _ & _ & _ & _ & ->)
    end.
Qed.


(** ** Undo, the visible composition and the pose cache *)

Lemma activeOutfitLayers_snoc (st : AppState) (l : OutfitLayer) :
  outfitHistory st !! currentOutfitIndex st = Some l ->
  activeOutfitLayers st = take (currentOutfitIndex st) (outfitHistory st) ++ [l].
Proof.
  intros Hl. unfold activeOutfitLayers. rewrite Nat.add_1_r.
  by apply take_S_r.
Qed.

(** X6. Undo then redo is a round trip.  From an idle well-formed state
    whose cursor is on a layer above the root, RemoveLastGarment followed
    by AddGarment of a garment with the id of that layer gives the state
    back, with the active pose reset to the default: no request is issued
    and no layer is touched. *)
Theorem undo_redo_round_trip (st : AppState) (garmentFile : File)
    (G G' : WardrobeItem.t) (currentLayer : OutfitLayer) :
  wfState st = true ->
  isLoading st = false ->
  0 < currentOutfitIndex st ->
  outfitHistory st !! currentOutfitIndex st = Some currentLayer ->
  garment currentLayer = Some G ->
  WardrobeItem.id G' = WardrobeItem.id G ->
  handleGarmentSelect garmentFile G' (handleRemoveLastGarment st)
  = setCurrentPoseIndex 0 st.
Proof.
  intros Hwf Hl Hpos Hlk Hg Hid.
  destruct (wfState_elim st Hwf) as [Hlt Hall].
  unfold handleRemoveLastGarment. rewrite bool_decide_eq_true_2 by done.
  destruct (lookup_lt_is_Some_2 (outfitHistory st) (currentOutfitIndex st - 1))
    as [below Hbelow]; [lia|].
  rewrite handleGarmentSelect_redo; simpl.
  - replace (currentOutfitIndex st - 1 + 1) with (currentOutfitIndex st) by lia.
    by destruct st.
  - done.
  - eapply display_truthy_at; simpl; [exact Hbelow|].
    exact (forallb_lookup wfLayer _ _ _ Hall Hbelow).
  - replace (currentOutfitIndex st - 1 + 1) with (currentOutfitIndex st) by lia.
    rewrite Hlk. simpl. rewrite Hg. by apply bool_decide_eq_true_2.
Qed.

(** X7. RemoveLastGarment hides the current layer and nothing else: the
    history array is untouched, the visible composition loses exactly its
    last layer, and the list of worn garment ids its last id.  At the root
    it does nothing. *)
Theorem removeLastGarment_hides_last_layer (st : AppState) :
  (currentOutfitIndex st = 0 -> handleRemoveLastGarment st = st)
  /\ (forall currentLayer G,
        0 < currentOutfitIndex st ->
        outfitHistory st !! currentOutfitIndex st = Some currentLayer ->
        garment currentLayer = Some G ->
        WardrobeItem.id G <> "" ->
        outfitHistory (handleRemoveLastGarment st) = outfitHistory st
        /\ activeOutfitLayers st
           = activeOutfitLayers (handleRemoveLastGarment st) ++ [currentLayer]
        /\ activeGarmentIds st
           = activeGarmentIds (handleRemoveLastGarment st) ++ [WardrobeItem.id G]
        /\ currentPoseIndex (handleRemoveLastGarment st) = 0).
Proof.
  split.
  - intros H0. unfold handleRemoveLastGarment. rewrite H0.
    by rewrite bool_decide_eq_false_2 by lia.
  - intros currentLayer G Hpos Hlk Hg Hid.
    assert (activeOutfitLayers (handleRemoveLastGarment st)
            = take (currentOutfitIndex st) (outfitHistory st)) as Hact.
    { unfold handleRemoveLastGarment. rewrite bool_decide_eq_true_2 by done.
      unfold activeOutfitLayers. simpl. f_equal. lia. }
    assert (outfitHistory (handleRemoveLastGarment st) = outfitHistory st) as Hh.
    { unfold handleRemoveLastGarment. by rewrite bool_decide_eq_true_2 by done. }
    split; [done|]. split; [|split].
    + rewrite Hact. by apply activeOutfitLayers_snoc.
    + unfold activeGarmentIds. rewrite Hact.
      rewrite (activeOutfitLayers_snoc st currentLayer Hlk), omap_app. simpl.
      rewrite Hg. apply truthy_Some in Hid. unfold truthy in Hid. by rewrite Hid.
    + unfold handleRemoveLastGarment. by rewrite bool_decide_eq_true_2 by done.
Qed.

(** X8. A successful AddGarment that is a new edit extends the visible
    composition by the new layer, puts the new image on display in the
    default pose, appends the garment's id to the worn ids, and leaves the
    garment resolvable in the registry. *)
Theorem addGarment_extends_composition (st : AppState) (garmentFile : File)
    (G : WardrobeItem.t) (newImageUrl : string) :
  wfState st = true ->
  isLoading st = false ->
  isRedoHit (outfitHistory st !! (currentOutfitIndex st + 1)) G = false ->
  WardrobeItem.id G <> "" ->
  exists st',
    run st [GarmentSelect garmentFile G; Settle (Resolved newImageUrl)] = Some st'
    /\ activeOutfitLayers st'
       = activeOutfitLayers st ++ [garmentLayer G newImageUrl]
    /\ outfitHistory st' = activeOutfitLayers st'
    /\ activeGarmentIds st' = activeGarmentIds st ++ [WardrobeItem.id G]
    /\ displayImageUrl st' = Some newImageUrl
    /\ currentPoseIndex st' = 0
    /\ is_Some (findGarment (wardrobe st') (WardrobeItem.id G)).
Proof.
  intros Hwf Hl Hredo Hid.
  destruct (wfState_elim st Hwf) as [Hlt _].
  simpl. rewrite handleGarmentSelect_new_edit; [|done|by apply wfState_display|done].
  eexists. split; [reflexivity|].
  assert (length (take (currentOutfitIndex st + 1) (outfitHistory st))
          = currentOutfitIndex st + 1) as Htake.
  { rewrite length_take. lia. }
  assert (activeOutfitLayers
            (resumeGarmentSelect (currentOutfitIndex st) G (Resolved newImageUrl)
               (mkState (modelImageUrl st) (outfitHistory st)
                  (currentOutfitIndex st) true
                  ("Adding " ++ WardrobeItem.name G ++ "...")%string None
                  (currentPoseIndex st) (wardrobe st)
                  (Some (AwaitTryOn (currentOutfitIndex st) G))
                  (genLog st ++
                   [CallTryOn (default "" (displayImageUrl st)) garmentFile])))
          = activeOutfitLayers st ++ [garmentLayer G newImageUrl]) as Hact.
  { unfold activeOutfitLayers. simpl.
    rewrite take_ge; [done|]. rewrite length_app, Htake. simpl. lia. }
  split; [exact Hact|]. split; [|split; [|split; [|split]]].
  - rewrite Hact. reflexivity.
  - unfold activeGarmentIds at 1. rewrite Hact, omap_app. simpl.
    apply truthy_Some in Hid. unfold truthy in Hid. by rewrite Hid.
  - unfold displayImageUrl. simpl.
    rewrite bool_decide_eq_false_2 by (rewrite length_app; simpl; lia).
    rewrite lookup_app_r by lia. rewrite Htake.
    replace (currentOutfitIndex st + 1 - (currentOutfitIndex st + 1)) with 0 by lia.
    reflexivity.
  - reflexivity.
  - simpl.
    destruct (findGarment (wardrobe st) (WardrobeItem.id G)) as [g0|] eqn:Efind.
    + unfold registerGarment. rewrite Efind. rewrite Efind. by eexists.
    + unfold registerGarment. rewrite Efind.
      rewrite (findGarment_snoc_new _ _ Efind). by eexists.
Qed.

Lemma setProp_absent (o : PoseImages) (k v : string) :
  getProp o k = None -> setProp o k v = o ++ [(k, v)].
Proof.
  induction o as [|[k' v'] o IH]; simpl; [done|].
  destruct (bool_decide (k' = k)); [done|]. intros H. by rewrite IH.
Qed.

Lemma getProp_app_l (o more : PoseImages) (k v : string) :
  getProp o k = Some v -> getProp (o ++ more) k = Some v.
Proof.
  induction o as [|[k' v'] o IH]; simpl; [done|].
  destruct (bool_decide (k' = k)); auto.
Qed.

Lemma getProp_snoc_absent (o : PoseImages) (k v : string) :
  getProp o k = None -> getProp (o ++ [(k, v)]) k = Some v.
Proof.
  induction o as [|[k' v'] o IH]; simpl.
  - by rewrite bool_decide_eq_true_2.
  - destruct (bool_decide (k' = k)); [done|]. auto.
Qed.

(** X9. A SelectPose that misses the cache and whose call succeeds.
    While the call is in flight the representative image of the layer is
    on display.  Afterwards the pose cache of the current layer is the old
    one with the new entry appended (nothing is removed or overwritten, the
    representative stays first), no other layer is touched, the new image
    is on display under the new pose, the pose is offered as available,
    and selecting it again from another pose is a cache hit that issues no
    request. *)
Theorem selectPose_success_grows_cache (st : AppState) (newIndex : nat)
    (currentLayer : OutfitLayer) (newImageUrl : string) :
  isLoading st = false ->
  newIndex <> currentPoseIndex st ->
  outfitHistory st !! currentOutfitIndex st = Some currentLayer ->
  wfLayer currentLayer = true ->
  getProp (poseImages currentLayer) (propKey (POSE_INSTRUCTIONS !! newIndex)) = None ->
  newImageUrl <> "" ->
  let poseKey := propKey (POSE_INSTRUCTIONS !! newIndex) in
  displayImageUrl (handlePoseSelect newIndex st)
  = firstValue (poseImages currentLayer)
  /\ exists st',
       run st [PoseSelect newIndex; Settle (Resolved newImageUrl)] = Some st'
       /\ outfitHistory st'
          = <[currentOutfitIndex st :=
                mkLayer (garment currentLayer)
                  (poseImages currentLayer ++ [(poseKey, newImageUrl)])]>
              (outfitHistory st)
       /\ (forall k v, getProp (poseImages currentLayer) k = Some v ->
             getProp (poseImages currentLayer ++ [(poseKey, newImageUrl)]) k = Some v)
       /\ currentPoseIndex st' = newIndex
       /\ currentOutfitIndex st' = currentOutfitIndex st
       /\ displayImageUrl st' = Some newImageUrl
       /\ availablePoseKeys st' = availablePoseKeys st ++ [poseKey]
       /\ isLoading st' = false
       /\ (forall otherIndex, otherIndex <> newIndex ->
             handlePoseSelect newIndex (setCurrentPoseIndex otherIndex st')
             = st').
Proof.
  intros Hl Hne Hlk Hwl Hmiss Himg poseKey.
  pose proof (lookup_lt_Some _ _ _ Hlk) as Hlt.
  assert (length (outfitHistory st) <> 0) as Hlen by lia.
  pose proof Hwl as [Hrep _]%andb_true_iff.
  assert (handlePoseSelect newIndex st =
    mkState (modelImageUrl st) (outfitHistory st) (currentOutfitIndex st) true
      "Changing pose..." None newIndex (wardrobe st)
      (Some (AwaitPose (currentOutfitIndex st) (POSE_INSTRUCTIONS !! newIndex)
               (currentPoseIndex st)))
      (genLog st ++ [CallPose (default "" (firstValue (poseImages currentLayer)))
                       (POSE_INSTRUCTIONS !! newIndex)])) as Hstart.
  { unfold handlePoseSelect. rewrite Hl, Hlk, Hmiss, Hrep.
    rewrite !bool_decide_eq_false_2 by done. reflexivity. }
  split.
  { rewrite Hstart. unfold displayImageUrl. simpl.
    rewrite bool_decide_eq_false_2 by done. rewrite Hlk. by rewrite Hmiss. }
  simpl. rewrite Hstart. unfold settle. simpl. rewrite Hlk.
  rewrite (setProp_absent _ _ _ Hmiss). fold poseKey.
  eexists. split; [reflexivity|]. simpl.
  assert (getProp (poseImages currentLayer ++ [(poseKey, newImageUrl)]) poseKey
          = Some newImageUrl) as Hnew by by apply getProp_snoc_absent.
  split; [done|]. split; [intros k v; apply getProp_app_l|].
  split; [done|]. split; [done|].
  assert (length (<[currentOutfitIndex st :=
            mkLayer (garment currentLayer)
              (poseImages currentLayer ++ [(poseKey, newImageUrl)])]>
            (outfitHistory st)) <> 0) as Hlen' by by rewrite length_insert.
  split; [|split; [|split]].
  - unfold displayImageUrl. simpl.
    rewrite bool_decide_eq_false_2 by done.
    rewrite list_lookup_insert_eq by done. simpl. fold poseKey. by rewrite Hnew.
  - unfold availablePoseKeys. simpl.
    rewrite !bool_decide_eq_false_2 by done.
    rewrite list_lookup_insert_eq by done. rewrite Hlk. simpl.
    unfold keys. by rewrite map_app.
  - done.
  - intros otherIndex Hother. unfold handlePoseSelect. simpl.
    rewrite !bool_decide_eq_false_2 by done. simpl.
    rewrite list_lookup_insert_eq by done. simpl. fold poseKey. rewrite Hnew.
    apply truthy_Some in Himg. rewrite Himg. reflexivity.
Qed.

(** X10. AddGarment builds on the image that is on display, in the active
    pose, not on the representative of the layer: with the pose [v] of the
    current layer on display, the request of a new edit carries [v] as its
    base, and the new layer stores the result under the default pose. *)
Theorem addGarment_builds_on_displayed_pose (st : AppState) (garmentFile : File)
    (G : WardrobeItem.t) (currentLayer : OutfitLayer)
    (displayed newImageUrl : string) :
  isLoading st = false ->
  outfitHistory st !! currentOutfitIndex st = Some currentLayer ->
  getProp (poseImages currentLayer)
    (propKey (POSE_INSTRUCTIONS !! currentPoseIndex st)) = Some displayed ->
  displayed <> "" ->
  isRedoHit (outfitHistory st !! (currentOutfitIndex st + 1)) G = false ->
  genLog (handleGarmentSelect garmentFile G st)
  = genLog st ++ [CallTryOn displayed garmentFile]
  /\ exists st',
       run st [GarmentSelect garmentFile G; Settle (Resolved newImageUrl)]
       = Some st'
       /\ outfitHistory st' !! (currentOutfitIndex st + 1)
          = Some (mkLayer (Some G) [(POSE0, newImageUrl)])
       /\ currentOutfitIndex st' = currentOutfitIndex st + 1.
Proof.
  intros Hl Hlk Hpose Hne Hredo.
  pose proof (lookup_lt_Some _ _ _ Hlk) as Hlt.
  assert (displayImageUrl st = Some displayed) as Hd.
  { unfold displayImageUrl. rewrite bool_decide_eq_false_2 by lia.
    by rewrite Hlk, Hpose. }
  assert (truthy (displayImageUrl st) = true) as Ht.
  { rewrite Hd. by apply truthy_Some. }
  simpl. rewrite handleGarmentSelect_new_edit by done. rewrite Hd. simpl.
  split; [done|]. eexists. split; [reflexivity|]. simpl. split; [|done].
  rewrite lookup_app_r by (rewrite length_take; lia).
  rewrite length_take.
  replace (currentOutfitIndex st + 1
           - (currentOutfitIndex st + 1) `min` length (outfitHistory st))
    with 0 by lia.
  reflexivity.
Qed.

(** ** The replay of an arbitrary list of ids *)

Lemma settleAll_cons (r : Response) (rs : list Response) (st : AppState) :
  settleAll (r :: rs) st
  = match settle r st with
    | Some st' => settleAll rs st'
    | None => None
    end.
Proof. reflexivity. Qed.

Lemma settleAll_app (rs1 rs2 : list Response) (st st1 : AppState) :
  settleAll rs1 st = Some st1 ->
  settleAll (rs1 ++ rs2) st = settleAll rs2 st1.
Proof.
  revert st. induction rs1 as [|r rs1 IH]; intros st; simpl.
  - by intros [= <-].
  - rewrite !settleAll_cons. destruct (settle r st); [apply IH|done].
Qed.

Lemma last_cons_indep {A : Type} (x : A) (l : list A) (d : A) :
  List.last (x :: l) d = List.last l x.
Proof.
  revert x d. induction l as [|y l IH]; intros x d; [done|].
  change (List.last (y :: l) d = List.last (y :: l) x).
  by rewrite !IH.
Qed.

(** The loop over [ids1 ++ ids2], fed the file and the image of every
    garment [ids1] resolves, arrives at the loop over [ids2] with the
    layers of [ids1] built, each generated on the image of the one
    before. *)
Lemma replayLoop_prefix (ids1 ids2 : list string) (fr : ReplayFrame)
    (st : AppState) (files : list File) (images : list string) :
  length files = length (resolveAll (frWardrobe fr) ids1) ->
  length images = length files ->
  exists st',
    settleAll (replaySteps files images) (replayLoop fr (ids1 ++ ids2) st)
    = Some (replayLoop
              (mkFrame (frWardrobe fr) (List.last images (frBaseImage fr))
                 (frNewLayers fr
                  ++ zip_with garmentLayer (resolveAll (frWardrobe fr) ids1) images))
              ids2 st')
    /\ replayedSoFar fr st (resolveAll (frWardrobe fr) ids1) files images st'.
Proof.
  revert fr st files images.
  induction ids1 as [|gid ids1 IH]; intros fr st files images Hf Hi.
  - simpl in Hf. destruct files; [|done]. destruct images; [|done].
    exists st. simpl. rewrite app_nil_r. destruct fr. simpl.
    split; [reflexivity|]. unfold replayedSoFar. simpl. rewrite app_nil_r. done.
  - unfold resolveAll in *. simpl in *.
    destruct (findGarment (frWardrobe fr) gid) as [g|] eqn:Efind; simpl in *.
    + destruct files as [|f files]; [done|].
      destruct images as [|img images]; [done|].
      injection Hf as Hf. injection Hi as Hi.
      unfold replaySteps. simpl. rewrite settleAll_cons.
      unfold settle at 1. simpl. rewrite settleAll_cons.
      unfold settle at 1. simpl. unfold resumeReplayTryOn. simpl.
      match goal with
      | |- context [replayLoop ?fr1 (ids1 ++ ids2) ?st1] =>
          destruct (IH fr1 st1 files images Hf Hi)
            as (st' & Hrun & Hh & Hidx & Hlog & Herr & Hl & Hw & Hp)
      end.
      exists st'. simpl in *. split.
      * unfold replaySteps in Hrun. rewrite Hrun.
        rewrite <- app_assoc. simpl. do 3 f_equal.
        destruct images as [|img2 images]; [done|].
        exact (eq_trans (last_cons_indep img2 images img)
                 (eq_sym (last_cons_indep img2 images (frBaseImage fr)))).
      * unfold replayedSoFar. simpl. repeat split; try done.
        -- rewrite Hh. destruct images; simpl; [|by rewrite <- app_assoc].
           by destruct (list_omap _ _ _ ids1).
        -- rewrite Hidx. rewrite length_app. simpl.
           destruct images; simpl; lia.
        -- rewrite Hlog. by rewrite <- app_assoc.
    + apply IH; done.
Qed.

(** The state in which [applyGarmentSequence] enters its loop. *)
Lemma replay_enters_loop (st : AppState) (outfit : SavedOutfit.t)
    (root : OutfitLayer) (redo : list OutfitLayer) (M0 : string) :
  isLoading st = false ->
  outfitHistory st = root :: redo ->
  getProp (poseImages root) POSE0 = Some M0 ->
  M0 <> "" ->
  settle TimerFired (handleApplySavedOutfit outfit st)
  = Some (replayLoop (mkFrame (wardrobe st) M0 [root])
            (SavedOutfit.garmentIds outfit)
            (mkState (modelImageUrl st) (outfitHistory st) 0 true
               ("Loading outfit: " ++ SavedOutfit.name outfit)%string None 0
               (wardrobe st)
               (Some (AwaitTimeout (outfitHistory st) (wardrobe st)
                        (SavedOutfit.garmentIds outfit)))
               (genLog st))).
Proof.
  intros Hl Hh HM0 Hne%truthy_Some.
  unfold handleApplySavedOutfit. rewrite Hl. unfold settle. simpl.
  unfold applyGarmentSequence. rewrite Hh. simpl. rewrite HM0, Hne. simpl.
  rewrite <- Hh. reflexivity.
Qed.

(** X11. The replay of any list of garment ids, every call succeeding.
    The ids the wardrobe resolves are applied in order and the others are
    skipped; the first generation is based on the root's default image,
    each later one on the image generated just before; the history ends up
    as the root followed by one layer per resolved garment, the cursor on
    the last one, no error, the busy flag cleared.  When no id resolves the
    history, redo buffer included, is left as it was. *)
Theorem replay_rebuilds_history (st : AppState) (outfit : SavedOutfit.t)
    (root : OutfitLayer) (redo : list OutfitLayer) (M0 : string)
    (files : list File) (images : list string) :
  isLoading st = false ->
  outfitHistory st = root :: redo ->
  getProp (poseImages root) POSE0 = Some M0 ->
  M0 <> "" ->
  length files
  = length (resolveAll (wardrobe st) (SavedOutfit.garmentIds outfit)) ->
  length images = length files ->
  exists st',
    settleAll (TimerFired :: replaySteps files images)
      (handleApplySavedOutfit outfit st) = Some st'
    /\ outfitHistory st'
       = match images with
         | [] => root :: redo
         | _ => root :: zip_with garmentLayer
                          (resolveAll (wardrobe st) (SavedOutfit.garmentIds outfit))
                          images
         end
    /\ currentOutfitIndex st' = length images
    /\ genLog st' = genLog st ++ zip_with CallTryOn (M0 :: images) files
    /\ error st' = None
    /\ isLoading st' = false
    /\ inflight st' = None
    /\ wardrobe st' = wardrobe st
    /\ currentPoseIndex st' = 0.
Proof.
  intros Hl Hh HM0 Hne Hf Hi.
  rewrite settleAll_cons, (replay_enters_loop st outfit root redo M0) by done.
  match goal with
  | |- context [replayLoop ?fr0 ?ids ?st0] =>
      destruct (replayLoop_prefix ids [] fr0 st0 files images Hf Hi)
        as (st' & Hrun & Hh' & Hidx & Hlog & Herr & Hl' & Hw & Hp)
  end.
  rewrite app_nil_r in Hrun. rewrite Hrun. simpl in *.
  eexists. split; [reflexivity|]. simpl.
  rewrite Hh', Hidx, Hlog, Herr, Hw, Hp, Hh.
  repeat split; try done; destruct images; simpl; lia.
Qed.

(** X12. A replay that fails part way.  After the garments of [ids1]
    were applied, the next resolved garment fails, either at the download
    of its file ([fetched = None]) or at its generation call: the replay
    stops there, the error names the garment, the busy flag is cleared, the
    layers built so far stay with the cursor on the last of them, and no
    request is issued for the ids that follow. *)
Theorem replay_failure_keeps_progress (st : AppState) (outfit : SavedOutfit.t)
    (root : OutfitLayer) (redo : list OutfitLayer) (M0 : string)
    (ids1 ids2 : list string) (failedId : string) (failed : WardrobeItem.t)
    (files : list File) (images : list string)
    (fetched : option File) (err : string) :
  isLoading st = false ->
  outfitHistory st = root :: redo ->
  getProp (poseImages root) POSE0 = Some M0 ->
  M0 <> "" ->
  SavedOutfit.garmentIds outfit = ids1 ++ failedId :: ids2 ->
  findGarment (wardrobe st) failedId = Some failed ->
  length files = length (resolveAll (wardrobe st) ids1) ->
  length images = length files ->
  exists st',
    settleAll
      (TimerFired :: replaySteps files images
       ++ match fetched with
          | Some f => [FileLoaded f; Rejected err]
          | None => [Rejected err]
          end)
      (handleApplySavedOutfit outfit st) = Some st'
    /\ outfitHistory st'
       = match images with
         | [] => root :: redo
         | _ => root :: zip_with garmentLayer (resolveAll (wardrobe st) ids1) images
         end
    /\ currentOutfitIndex st' = length images
    /\ genLog st'
       = genLog st ++ zip_with CallTryOn (M0 :: images) files
         ++ match fetched with
            | Some f => [CallTryOn (List.last images M0) f]
            | None => []
            end
    /\ error st'
       = Some (getFriendlyErrorMessage err
                 ("Failed to apply " ++ WardrobeItem.name failed)%string)
    /\ isLoading st' = false
    /\ inflight st' = None.
Proof.
  intros Hl Hh HM0 Hne Hids Hfind Hf Hi.
  rewrite settleAll_cons, (replay_enters_loop st outfit root redo M0) by done.
  rewrite Hids.
  match goal with
  | |- context [replayLoop ?fr0 _ ?st0] =>
      destruct (replayLoop_prefix ids1 (failedId :: ids2) fr0 st0 files images
                  Hf Hi)
        as (st' & Hrun & Hh' & Hidx & Hlog & Herr & Hl' & Hw & Hp)
  end.
  rewrite (settleAll_app _ _ _ _ Hrun). simpl in *. rewrite Hfind.
  destruct fetched as [f|]; rewrite !settleAll_cons; unfold settle; simpl;
    (eexists; split; [reflexivity|]); simpl;
    rewrite Hh', Hidx, Hlog, Hh, ?app_nil_r, <- ?app_assoc;
    repeat split; try done; try (by destruct images);
    destruct images; simpl; lia.
Qed.

(** The part of the replay that the saved outfit index relies on. *)
Lemma replay_rebuilt_state (st : AppState) (outfit : SavedOutfit.t)
    (root : OutfitLayer) (redo : list OutfitLayer) (M0 : string)
    (files : list File) (images : list string) :
  isLoading st = false ->
  outfitHistory st = root :: redo ->
  getProp (poseImages root) POSE0 = Some M0 ->
  M0 <> "" ->
  length files
  = length (resolveAll (wardrobe st) (SavedOutfit.garmentIds outfit)) ->
  length images = length files ->
  exists st',
    settleAll (TimerFired :: replaySteps files images)
      (handleApplySavedOutfit outfit st) = Some st'
    /\ outfitHistory st'
       = match images with
         | [] => root :: redo
         | _ => root :: zip_with garmentLayer
                          (resolveAll (wardrobe st) (SavedOutfit.garmentIds outfit))
                          images
         end
    /\ currentOutfitIndex st' = length images
    /\ error st' = None
    /\ isLoading st' = false.
Proof.
  intros Hl Hh HM0 Hne Hf Hi.
  rewrite settleAll_cons, (replay_enters_loop st outfit root redo M0) by done.
  match goal with
  | |- context [replayLoop ?fr0 ?ids ?st0] =>
      destruct (replayLoop_prefix ids [] fr0 st0 files images Hf Hi)
        as (st' & Hrun & Hh' & Hidx & Hlog & Herr & Hl' & Hw & Hp)
  end.
  rewrite app_nil_r in Hrun. rewrite Hrun. simpl in *.
  eexists. split; [reflexivity|]. simpl.
  rewrite Hh', Hidx, Herr, Hh.
  repeat split; try done; destruct images; simpl; lia.
Qed.

(** ** The saved outfit index *)

Lemma activeGarmentIds_truthy (st : AppState) :
  Forall (fun garmentId => garmentId <> "") (activeGarmentIds st).
Proof.
  unfold activeGarmentIds. induction (activeOutfitLayers st) as [|l ls IH]; simpl.
  - constructor.
  - destruct (garment l) as [g|]; [|done].
    destruct (negb (bool_decide (WardrobeItem.id g = ""))) eqn:E; [|done].
    constructor; [|done]. apply negb_true_iff, bool_decide_eq_false in E. done.
Qed.

Lemma resolveAll_ids (w : list WardrobeItem.t) (ids : list string) :
  Forall (fun garmentId => is_Some (findGarment w garmentId)) ids ->
  map WardrobeItem.id (resolveAll w ids) = ids.
Proof.
  unfold resolveAll. induction 1 as [|gid ids [g Hg] _ IH]; simpl; [done|].
  rewrite Hg. simpl. f_equal; [|exact IH].
  by destruct (findGarment_Some_id _ _ _ Hg) as [-> _].
Qed.

Lemma garmentIds_of_built_layers (gs : list WardrobeItem.t) (images : list string) :
  length images = length gs ->
  Forall (fun garmentId => garmentId <> "") (map WardrobeItem.id gs) ->
  omap (fun layer =>
          match garment layer with
          | Some g => if truthy (Some (WardrobeItem.id g))
                      then Some (WardrobeItem.id g) else None
          | None => None
          end)
       (zip_with garmentLayer gs images)
  = map WardrobeItem.id gs.
Proof.
  revert images. induction gs as [|g gs IH]; intros images Hlen Hids; [done|].
  destruct images as [|img images]; [done|]. simpl in *.
  apply list.Forall_cons in Hids as [Hid Hids]. apply truthy_Some in Hid.
  unfold truthy in Hid. rewrite Hid. f_equal. apply IH; [lia|done].
Qed.

(** X13. Saving and replaying is a round trip on the worn garments.  If
    [handleSaveOutfit] stored [outfit] for the state [st], then replaying
    [outfit] later, from any idle state whose root has a default image and
    whose wardrobe still resolves those ids, every call succeeding, ends
    in a state that wears exactly the garment ids [st] wore, in the same
    order; and the preview of [outfit] is the image [st] had on display. *)
Theorem save_then_apply_round_trip (st st2 : AppState)
    (promptAnswer : option string) (now : N) (saved : list SavedOutfit.t)
    (outfit : SavedOutfit.t) (root2 : OutfitLayer) (redo2 : list OutfitLayer)
    (M0 : string) (files : list File) (images : list string) :
  handleSaveOutfit promptAnswer now st saved = outfit :: saved ->
  isLoading st2 = false ->
  outfitHistory st2 = root2 :: redo2 ->
  garment root2 = None ->
  getProp (poseImages root2) POSE0 = Some M0 ->
  M0 <> "" ->
  Forall (fun garmentId => is_Some (findGarment (wardrobe st2) garmentId))
         (activeGarmentIds st) ->
  length files = length (activeGarmentIds st) ->
  length images = length files ->
  SavedOutfit.garmentIds outfit = activeGarmentIds st
  /\ displayImageUrl st = Some (SavedOutfit.previewUrl outfit)
  /\ exists st',
       settleAll (TimerFired :: replaySteps files images)
         (handleApplySavedOutfit outfit st2) = Some st'
       /\ activeGarmentIds st' = activeGarmentIds st
       /\ currentOutfitIndex st' = length (activeGarmentIds st)
       /\ error st' = None
       /\ isLoading st' = false.
Proof.
  intros Hsave Hl Hh Hroot HM0 Hne Hres Hf Hi.
  assert (forall x : SavedOutfit.t, saved <> x :: saved) as Hfresh.
  { intros x E. apply (f_equal length) in E. simpl in E. lia. }
  unfold handleSaveOutfit in Hsave.
  destruct (_ || _) eqn:Eguard; [by destruct (Hfresh outfit)|].
  destruct (truthy promptAnswer); [|by destruct (Hfresh outfit)].
  apply orb_false_iff in Eguard as [_ Hd]. apply negb_false_iff in Hd.
  apply truthy_true in Hd as (d & Hd & _).
  injection Hsave as <-. simpl. rewrite Hd. simpl.
  split; [done|]. split; [done|].
  pose proof (resolveAll_ids _ _ Hres) as Hids.
  assert (length (resolveAll (wardrobe st2) (activeGarmentIds st))
          = length (activeGarmentIds st)) as Hlen.
  { rewrite <- Hids at 2. by rewrite length_map. }
  match goal with
  | |- context [handleApplySavedOutfit ?o st2] =>
      destruct (replay_rebuilt_state st2 o root2 redo2 M0 files images)
        as (st' & Hrun & Hh' & Hidx & Herr & Hl'); simpl; try done; try congruence
  end.
  exists st'. split; [done|]. split; [|split; [lia|done]].
  unfold activeGarmentIds at 1, activeOutfitLayers. rewrite Hh', Hidx.
  destruct images as [|img images].
  - destruct (activeGarmentIds st); [|simpl in *; lia].
    simpl. by rewrite Hroot.
  - rewrite take_ge.
    2:{ simpl. rewrite length_zip_with. simpl in *. lia. }
    simpl omap at 1. cbn [omap list_omap]. rewrite Hroot.
    rewrite garmentIds_of_built_layers; [done| |].
    + simpl in *. lia.
    + rewrite Hids. apply activeGarmentIds_truthy.
Qed.

(** X14. [handleSaveOutfit] never touches the outfits already saved: the
    index is either unchanged or has one new outfit in front.  Nothing is
    saved when the cursor is on the root, when no image is on display, or
    when the prompt is cancelled or answered with the empty string; in
    every other case the new outfit carries the name given, the worn
    garment ids and the displayed image. *)
Theorem saveOutfit_prepends_or_refuses (promptAnswer : option string) (now : N)
    (st : AppState) (saved : list SavedOutfit.t) :
  (handleSaveOutfit promptAnswer now st saved = saved
   \/ exists outfit, handleSaveOutfit promptAnswer now st saved = outfit :: saved)
  /\ (currentOutfitIndex st = 0 ->
      handleSaveOutfit promptAnswer now st saved = saved)
  /\ (truthy (displayImageUrl st) = false ->
      handleSaveOutfit promptAnswer now st saved = saved)
  /\ (truthy promptAnswer = false ->
      handleSaveOutfit promptAnswer now st saved = saved)
  /\ (forall name image,
        promptAnswer = Some name -> name <> "" ->
        displayImageUrl st = Some image -> image <> "" ->
        0 < currentOutfitIndex st < length (outfitHistory st) ->
        handleSaveOutfit promptAnswer now st saved
        = SavedOutfit.mk ("outfit-" ++ pretty.pretty now)%string name
            (activeGarmentIds st) image :: saved).
Proof.
  unfold handleSaveOutfit. repeat split.
  - destruct (_ || _); [by left|]. destruct (truthy promptAnswer); eauto.
  - intros H0. unfold activeOutfitLayers. rewrite H0.
    rewrite bool_decide_eq_true_2; [done|]. rewrite length_take. lia.
  - intros ->. by rewrite orb_true_r.
  - intros ->. by destruct (_ || _).
  - intros name image -> Hname Hd Himage Hidx.
    apply truthy_Some in Hname, Himage. rewrite Hd, Hname, Himage.
    rewrite bool_decide_eq_false_2; [done|].
    unfold activeOutfitLayers. rewrite length_take. lia.
Qed.

(** X15. [handleDeleteSavedOutfit], once confirmed, removes every outfit
    with the given id and keeps the others in their order; declined, or
    for an id that is not in the index, it changes nothing; and deleting
    an outfit right after saving it, under an id no older outfit has,
    gives back the index as it was before the save. *)
Theorem deleteSavedOutfit_removes_by_id (outfitId : string)
    (saved : list SavedOutfit.t) :
  handleDeleteSavedOutfit false outfitId saved = saved
  /\ Forall (fun o => SavedOutfit.id o <> outfitId)
            (handleDeleteSavedOutfit true outfitId saved)
  /\ (forall o, o ∈ handleDeleteSavedOutfit true outfitId saved
                <-> o ∈ saved /\ SavedOutfit.id o <> outfitId)
  /\ handleDeleteSavedOutfit true outfitId saved `sublist_of` saved
  /\ (Forall (fun o => SavedOutfit.id o <> outfitId) saved ->
      handleDeleteSavedOutfit true outfitId saved = saved
      /\ forall promptAnswer now st outfit,
           handleSaveOutfit promptAnswer now st saved = outfit :: saved ->
           SavedOutfit.id outfit = outfitId ->
           handleDeleteSavedOutfit true outfitId
             (handleSaveOutfit promptAnswer now st saved) = saved).
Proof.
  unfold handleDeleteSavedOutfit.
  assert (Forall (fun o => SavedOutfit.id o <> outfitId) saved ->
          filter (fun o => SavedOutfit.id o <> outfitId) saved = saved) as Hid.
  { induction 1 as [|o os Ho _ IH]; [done|].
    rewrite filter_cons_True by done. by rewrite IH. }
  split; [done|]. split; [|split; [|split; [|intros Hall; split]]].
  - apply list.Forall_forall. by intros o [? ?]%list_elem_of_filter.
  - intros o. by rewrite list_elem_of_filter, (comm and).
  - apply sublist_filter.
  - by apply Hid.
  - intros promptAnswer now st outfit -> Hoid.
    rewrite filter_cons_False by (intros Hne; by apply Hne).
    by apply Hid.
Qed.

(** ** Start over *)

(** X16. After [handleStartOver] the engine is empty: nothing is on
    display, no garment is worn, the wardrobe is the default one, and
    AddGarment, RemoveLastGarment and SelectPose do nothing.  A saved
    outfit applied in this state issues no request and ends with the error
    that the base model image is not available, the busy flag cleared. *)
Theorem startOver_empties_engine (st : AppState) (garmentFile : File)
    (garmentInfo : WardrobeItem.t) (newIndex : nat) (outfit : SavedOutfit.t) :
  let fresh := handleStartOver st in
  displayImageUrl fresh = None
  /\ activeGarmentIds fresh = []
  /\ wardrobe fresh = defaultWardrobe
  /\ handleGarmentSelect garmentFile garmentInfo fresh = fresh
  /\ handleRemoveLastGarment fresh = fresh
  /\ handlePoseSelect newIndex fresh = fresh
  /\ exists st',
       run fresh [ApplySavedOutfit outfit; Settle TimerFired] = Some st'
       /\ error st' = Some "Base model image is not available."
       /\ outfitHistory st' = []
       /\ genLog st' = genLog st
       /\ isLoading st' = false
       /\ inflight st' = None.
Proof.
  intros fresh.
  do 6 (split; [vm_compute; reflexivity|]).
  exists (mkState None [] 0 false "" (Some "Base model image is not available.")
            0 defaultWardrobe None (genLog st)).
  split; [vm_compute; reflexivity|]. repeat split.
Qed.

(** X17. [handleStartOver] does not cancel a call that is in flight.
    When the pending pose change is then fulfilled, its state updater
    finds no layer at the captured position and throws; when a pending
    AddGarment is fulfilled, its layer becomes the only layer of the
    history, without a root, with the cursor past it and nothing on
    display. *)
Theorem startOver_leaves_call_in_flight (st : AppState) (newImageUrl : string) :
  inflight (handleStartOver st) = inflight st
  /\ (forall capturedIndex poseInstruction prevPoseIndex,
        inflight st = Some (AwaitPose capturedIndex poseInstruction prevPoseIndex) ->
        settle (Resolved newImageUrl) (handleStartOver st) = None)
  /\ (forall capturedIndex garmentInfo,
        inflight st = Some (AwaitTryOn capturedIndex garmentInfo) ->
        exists st',
          settle (Resolved newImageUrl) (handleStartOver st) = Some st'
          /\ outfitHistory st' = [garmentLayer garmentInfo newImageUrl]
          /\ currentOutfitIndex st' = 1
          /\ displayImageUrl st' = None).
Proof.
  split; [done|]. split.
  - intros ci instr prev Hin. unfold settle. simpl. rewrite Hin. simpl. done.
  - intros ci g Hin. unfold settle. simpl. rewrite Hin.
    eexists. split; [reflexivity|]. simpl.
    rewrite take_nil. done.
Qed.

(** ** The upload of the wardrobe panel *)

(** X18. [handleFileChange].  Without a chosen file nothing happens.  A
    file whose type does not start with [image/] never reaches the engine:
    the panel shows its error and the state of the engine is unchanged.  An
    image is handed to AddGarment as a garment of brand "Custom Upload"
    named after the file, under an id made of the time of the upload, and
    uploads at different times get different ids. *)
Theorem fileChange_filters_uploads (files : list File) (file : File)
    (now now' : N) (objectUrl : string) (panelError : option string)
    (st : AppState) :
  handleFileChange [] now objectUrl panelError st = (panelError, st)
  /\ (String.prefix "image/" (fileType file) = false ->
      handleFileChange (file :: files) now objectUrl panelError st
      = (Some "Please select an image file.", st))
  /\ (String.prefix "image/" (fileType file) = true ->
      handleFileChange (file :: files) now objectUrl panelError st
      = (panelError,
         handleGarmentSelect file
           (WardrobeItem.mk ("custom-" ++ pretty.pretty now)%string
              (fileName file) objectUrl (Some "Custom Upload") None None) st))
  /\ (("custom-" ++ pretty.pretty now)%string
      = ("custom-" ++ pretty.pretty now')%string -> now = now').
Proof.
  unfold handleFileChange. simpl. repeat split.
  - by intros ->.
  - by intros ->.
  - intros [= E]. exact (pretty.pretty_N_inj _ _ E).
Qed.

End Handlers.

Local Open Scope list_scope.

(** ** The sample states are states of the engine *)

Example freshM0_initialized : handleModelFinalized "M0" initialState = freshM0.
Proof. vm_compute. reflexivity. Qed.

Example dressedM0_reached :
  run plainErrorMessage freshM0
    [GarmentSelect jacketFile jacket; Settle (Resolved "M1");
     GarmentSelect teeFile tee; Settle (Resolved "M2")] = Some dressedM0.
Proof. vm_compute. reflexivity. Qed.

Example undoneM0_reached :
  run plainErrorMessage dressedM0 [RemoveLastGarment; RemoveLastGarment]
  = Some undoneM0.
Proof. vm_compute. reflexivity. Qed.

Example posedM0_reached :
  run plainErrorMessage freshM0
    [GarmentSelect jacketFile jacket; Settle (Resolved "M1");
     PoseSelect 2; Settle (Resolved "M1s")] = Some posedM0.
Proof. vm_compute. reflexivity. Qed.

(** The scenario of the specification: jacket on, side profile requested
    on the jacket layer, undo, and the jacket again, which is a redo hit
    that shows [M1] in the default pose without a third request. *)
Example jacket_pose_undo_redo :
  exists st,
    run plainErrorMessage posedM0
      [RemoveLastGarment; GarmentSelect jacketFile jacket] = Some st
    /\ currentOutfitIndex st = 1
    /\ currentPoseIndex st = 0
    /\ displayImageUrl st = Some "M1"
    /\ genLog st = genLog posedM0.
Proof.
  exists (mkState (Some "M0") (outfitHistory posedM0) 1 false "" None 0
            defaultWardrobe None (genLog posedM0)).
  split; [vm_compute; reflexivity|]. repeat split; vm_compute; reflexivity.
Qed.

(** The replay of [jacket; tee] over [undoneM0], whose redo buffer holds
    these very layers: both generation calls are issued again. *)
Example replay_ignores_redo_buffer :
  run plainErrorMessage undoneM0
    [ApplySavedOutfit
       (SavedOutfit.mk "outfit-1" "My New Look"
          ["google-cloud-jacket"; "gemini-tee"] "M2");
     Settle TimerFired;
     Settle (FileLoaded jacketFile); Settle (Resolved "N1");
     Settle (FileLoaded teeFile); Settle (Resolved "N2")]
  = Some (mkState (Some "M0")
            [rootM0; garmentLayer jacket "N1"; garmentLayer tee "N2"]
            2 false "" None 0 defaultWardrobe None
            (genLog undoneM0
             ++ [CallTryOn "M0" jacketFile; CallTryOn "N1" teeFile])).
Proof. vm_compute. reflexivity. Qed.

(** ** The theorems at concrete inputs *)

(** C1: a saved outfit whose first id is not in the wardrobe.  The replay
    neither stops nor reports an error: the tee, which comes after the
    unknown id, is applied. *)
Lemma replay_unknown_id_goes_on :
  findGarment defaultWardrobe "custom-1700000000000" = None
  /\ exists st,
       run plainErrorMessage freshM0
         [ApplySavedOutfit
            (SavedOutfit.mk "outfit-1" "My New Look"
               ["custom-1700000000000"; "gemini-tee"] "M9");
          Settle TimerFired; Settle (FileLoaded teeFile);
          Settle (Resolved "M1")] = Some st
       /\ error st = None
       /\ outfitHistory st = [rootM0; garmentLayer tee "M1"]
       /\ genLog st = [CallTryOn "M0" teeFile]
       /\ isLoading st = false.
Proof.
  split; [vm_compute; reflexivity|].
  exists (mkState (Some "M0") [rootM0; garmentLayer tee "M1"] 1 false "" None 0
            defaultWardrobe None [CallTryOn "M0" teeFile]).
  split; [vm_compute; reflexivity|]. repeat split; reflexivity.
Qed.

Lemma replay_skips_unknown_ids_witness :
  replayLoop (mkFrame defaultWardrobe "M0" [rootM0])
    (["custom-1700000000000"] ++ ["gemini-tee"]) freshM0
  = replayLoop (mkFrame defaultWardrobe "M0" [rootM0]) ["gemini-tee"] freshM0
  /\ error (replayLoop (mkFrame defaultWardrobe "M0" [rootM0])
              (["custom-1700000000000"] ++ ["gemini-tee"]) freshM0) = None.
Proof.
  pose proof (replay_skips_unknown_ids
    (mkFrame defaultWardrobe "M0" [rootM0])
    ["custom-1700000000000"] ["gemini-tee"] freshM0) as Hskip.
  destruct Hskip as (Heq & Herr & _).
  - constructor; [reflexivity|constructor].
  - split; [exact Heq|exact Herr].
Defined.

(** C3: a pose change on the root adds a second entry to its pose
    cache. *)
Lemma root_cache_grows :
  exists st root,
    run plainErrorMessage (handleModelFinalized "M0" initialState)
      [PoseSelect 2; Settle (Resolved "M0s")] = Some st
    /\ outfitHistory st !! 0 = Some root
    /\ poseImages root = [(POSE0, "M0"); ("Side profile view", "M0s")]
    /\ length (poseImages root) = 2.
Proof.
  exists (mkState (Some "M0")
            [mkLayer None [(POSE0, "M0"); ("Side profile view", "M0s")]]
            0 false "" None 2 defaultWardrobe None
            [CallPose "M0" (Some "Side profile view")]),
         (mkLayer None [(POSE0, "M0"); ("Side profile view", "M0s")]).
  split; [vm_compute; reflexivity|]. repeat split; reflexivity.
Qed.

Lemma root_layer_invariant_witness :
  exists st root,
    run plainErrorMessage (handleModelFinalized "M0" initialState)
      [PoseSelect 2; Settle (Resolved "M0s");
       GarmentSelect jacketFile jacket; Settle (Resolved "M1");
       RemoveLastGarment] = Some st
    /\ outfitHistory st !! 0 = Some root
    /\ garment root = None
    /\ getProp (poseImages root) POSE0 = Some "M0"
    /\ firstValue (poseImages root) = Some "M0".
Proof.
  apply (root_layer_invariant plainErrorMessage initialState "M0"). reflexivity.
Defined.

Lemma addGarment_failure_keeps_history_witness :
  isLoading dressedM0 = false
  /\ exists st',
       run plainErrorMessage dressedM0
         [GarmentSelect sweatFile sweat; Settle (Rejected "quota exceeded")]
       = Some st'
       /\ length (outfitHistory st') = 3
       /\ currentOutfitIndex st' = 2.
Proof.
  split; [reflexivity|].
  destruct (addGarment_failure_keeps_history plainErrorMessage dressedM0
              sweatFile sweat "quota exceeded" 3)
    as (st' & Hrun & _ & _ & Hlen & Hidx & _); try reflexivity.
  exists st'. split; [exact Hrun|]. split; [exact Hlen|exact Hidx].
Defined.

Lemma addGarment_redo_idempotent_witness :
  wfState dressedM0 = true
  /\ exists st1,
       run plainErrorMessage dressedM0
         [GarmentSelect sweatFile sweat; Settle (Resolved "M3")] = Some st1
       /\ run plainErrorMessage st1
            [RemoveLastGarment; GarmentSelect sweatFile sweat] = Some st1.
Proof.
  split; [reflexivity|].
  destruct (addGarment_redo_idempotent plainErrorMessage dressedM0
              sweatFile sweatFile sweat sweat "M3")
    as (st1 & Hrun & _ & Hredo & _); try reflexivity.
  exists st1. split; [exact Hrun|exact Hredo].
Defined.

Lemma addGarment_branch_overwrite_witness :
  currentOutfitIndex undoneM0 = 0
  /\ exists st',
       run plainErrorMessage undoneM0
         [GarmentSelect teeFile tee; Settle (Resolved "M3")] = Some st'
       /\ length (outfitHistory st') = 0 + 2
       /\ outfitHistory st' !! (0 + 1) = Some (garmentLayer tee "M3").
Proof.
  split; [reflexivity|].
  destruct (addGarment_branch_overwrite plainErrorMessage undoneM0
              teeFile tee "M3" 0 2)
    as (st' & Hrun & _ & Hlen & Hnew & _); try reflexivity.
  - lia.
  - intros l g [= <-] [= <-]. discriminate.
  - exists st'. split; [exact Hrun|]. split; [exact Hlen|exact Hnew].
Defined.

Lemma replay_two_garments_witness :
  exists st',
    run plainErrorMessage freshM0
      [ApplySavedOutfit
         (SavedOutfit.mk "outfit-1" "My New Look"
            ["google-cloud-jacket"; "gemini-tee"] "M2");
       Settle TimerFired;
       Settle (FileLoaded jacketFile); Settle (Resolved "M1");
       Settle (FileLoaded teeFile); Settle (Resolved "M2")] = Some st'
    /\ outfitHistory st'
       = [rootM0; garmentLayer jacket "M1"; garmentLayer tee "M2"]
    /\ genLog st' = [CallTryOn "M0" jacketFile; CallTryOn "M1" teeFile].
Proof.
  destruct (replay_two_garments plainErrorMessage freshM0
              (SavedOutfit.mk "outfit-1" "My New Look"
                 ["google-cloud-jacket"; "gemini-tee"] "M2")
              "google-cloud-jacket" "gemini-tee" jacket tee
              jacketFile teeFile "M1" "M2" "M0" rootM0 [])
    as (st' & Hrun & Hh & _ & Hlog & _); try reflexivity.
  - discriminate.
  - exists st'. split; [exact Hrun|]. split; [exact Hh|exact Hlog].
Defined.

(** On [posedM0] the side profile [M1s] is on display; the default pose is
    cached, the 3/4 view is not, and the request for it starts from the
    representative [M1]. *)
Lemma selectPose_hit_or_miss_witness :
  displayImageUrl posedM0 = Some "M1s"
  /\ handlePoseSelect 0 posedM0 = setCurrentPoseIndex 0 posedM0
  /\ genLog (handlePoseSelect 0 posedM0) = genLog posedM0
  /\ exists representative,
       representative = "M1"
       /\ genLog (handlePoseSelect 1 posedM0)
          = genLog posedM0
            ++ [CallPose representative (Some "Slightly turned, 3/4 view")].
Proof.
  split; [reflexivity|].
  destruct (selectPose_hit_or_miss posedM0 0
              (mkLayer (Some jacket) [(POSE0, "M1"); ("Side profile view", "M1s")]))
    as [Hhit _]; try reflexivity; [discriminate|].
  destruct Hhit as (Heq & _ & Hlog & _); [by eexists|].
  split; [exact Heq|]. split; [exact Hlog|].
  destruct (selectPose_hit_or_miss posedM0 1
              (mkLayer (Some jacket) [(POSE0, "M1"); ("Side profile view", "M1s")]))
    as [_ Hmiss]; try reflexivity; [discriminate|].
  destruct Hmiss as (rep & Hrep & Hlog' & _); [reflexivity|].
  exists rep. split; [|exact Hlog']. by injection Hrep.
Defined.

Lemma selectPose_failure_reverts_witness :
  currentPoseIndex posedM0 = 2
  /\ currentPoseIndex (handlePoseSelect 1 posedM0) = 1
  /\ exists st',
       run plainErrorMessage posedM0
         [PoseSelect 1; Settle (Rejected "blocked")] = Some st'
       /\ currentPoseIndex st' = 2
       /\ outfitHistory st' = outfitHistory posedM0.
Proof.
  split; [reflexivity|].
  destruct (selectPose_failure_reverts plainErrorMessage posedM0 1
              (mkLayer (Some jacket) [(POSE0, "M1"); ("Side profile view", "M1s")])
              "blocked")
    as (Hopt & _ & st' & Hrun & Hptr & Hh & _); try reflexivity; [discriminate|].
  split; [exact Hopt|]. exists st'.
  split; [exact Hrun|]. split; [exact Hptr|exact Hh].
Defined.

(** On [dressedM0] the replay of the tee alone: up to the fulfilment of
    its generation call the three layers are all there, afterwards only
    the root and the new tee layer. *)
Lemma replay_replaces_history_on_first_success_witness :
  exists st1 st2,
    settleAll plainErrorMessage [TimerFired; FileLoaded teeFile]
      (handleApplySavedOutfit
         (SavedOutfit.mk "outfit-2" "Tee only" ["gemini-tee"] "M5") dressedM0)
    = Some st1
    /\ outfitHistory st1 = outfitHistory dressedM0
    /\ currentOutfitIndex st1 = 0
    /\ settle plainErrorMessage (Resolved "M5") st1 = Some st2
    /\ outfitHistory st2 = [rootM0; garmentLayer tee "M5"].
Proof.
  destruct (replay_replaces_history_on_first_success plainErrorMessage dressedM0
              (SavedOutfit.mk "outfit-2" "Tee only" ["gemini-tee"] "M5")
              [TimerFired; FileLoaded teeFile])
    as (st1 & Hrun & Hh & Hi & Hfirst); try reflexivity.
  assert (st1 = mkState (Some "M0") (outfitHistory dressedM0) 0 true
                  "Applying Gemini Tee..." None 0 defaultWardrobe
                  (Some (AwaitReplayTryOn (mkFrame defaultWardrobe "M0" [rootM0])
                           tee []))
                  (genLog dressedM0 ++ [CallTryOn "M0" teeFile])) as Hst1.
  { injection Hrun as <-. reflexivity. }
  destruct (Hfirst (mkFrame defaultWardrobe "M0" [rootM0]) tee [] "M5")
    as (root & st2 & Hroot & Hsettle & Hh2 & _).
  { rewrite Hst1. reflexivity. }
  exists st1, st2. split; [exact Hrun|]. split; [exact Hh|]. split; [exact Hi|].
  split; [exact Hsettle|]. injection Hroot as <-. exact Hh2.
Defined.

(** ** The further theorems at concrete inputs *)

Lemma registerGarment_keeps_registry_witness :
  NoDup (map WardrobeItem.id defaultWardrobe)
  /\ NoDup (map WardrobeItem.id (registerGarment customShirt defaultWardrobe))
  /\ registerGarment customShirt defaultWardrobe = defaultWardrobe ++ [customShirt]
  /\ registerGarment tee defaultWardrobe = defaultWardrobe.
Proof.
  assert (NoDup (map WardrobeItem.id defaultWardrobe)) as Hnd.
  { apply (bool_decide_unpack _). vm_compute. exact I. }
  split; [exact Hnd|].
  split.
  - exact (proj1 (registerGarment_keeps_registry customShirt defaultWardrobe Hnd)).
  - split; vm_compute; reflexivity.
Defined.

Lemma run_extends_wardrobe_witness :
  run plainErrorMessage freshM0
    [GarmentSelect shirtFile customShirt; Settle (Resolved "M1")]
  = Some (mkState (Some "M0") [rootM0; garmentLayer customShirt "M1"] 1 false ""
            None 0 (defaultWardrobe ++ [customShirt]) None
            [CallTryOn "M0" shirtFile])
  /\ wardrobe freshM0 `prefix_of` defaultWardrobe ++ [customShirt].
Proof.
  assert (run plainErrorMessage freshM0
            [GarmentSelect shirtFile customShirt; Settle (Resolved "M1")]
          = Some (mkState (Some "M0") [rootM0; garmentLayer customShirt "M1"] 1
                    false "" None 0 (defaultWardrobe ++ [customShirt]) None
                    [CallTryOn "M0" shirtFile])) as Hrun.
  { vm_compute. reflexivity. }
  split; [exact Hrun|].
  exact (proj1 (run_extends_wardrobe plainErrorMessage _ freshM0 _ Hrun)).
Defined.


Lemma history_changes_only_on_fulfilment_witness :
  exists st',
    step plainErrorMessage busyM0 (Settle (Rejected "quota")) = Some st'
    /\ outfitHistory st' = outfitHistory busyM0
    /\ wardrobe st' = wardrobe busyM0.
Proof.
  apply (history_changes_only_on_fulfilment plainErrorMessage busyM0
           (Settle (Rejected "quota"))).
  intros imageUrl. discriminate.
Defined.


Lemma undo_redo_round_trip_witness :
  handleGarmentSelect teeFile tee (handleRemoveLastGarment dressedM0)
  = setCurrentPoseIndex 0 dressedM0.
Proof.
  apply (undo_redo_round_trip dressedM0 teeFile tee tee
           (mkLayer (Some tee) [(POSE0, "M2")])); try reflexivity.
  simpl. lia.
Defined.

Lemma removeLastGarment_hides_last_layer_witness :
  activeGarmentIds dressedM0
  = activeGarmentIds (handleRemoveLastGarment dressedM0) ++ ["gemini-tee"]
  /\ handleRemoveLastGarment freshM0 = freshM0.
Proof.
  split.
  - destruct (removeLastGarment_hides_last_layer dressedM0) as [_ Hundo].
    assert (0 < currentOutfitIndex dressedM0) as Hpos by (simpl; lia).
    assert (WardrobeItem.id tee <> "") as Hid by discriminate.
    exact (proj1 (proj2 (proj2
             (Hundo (mkLayer (Some tee) [(POSE0, "M2")]) tee Hpos
                eq_refl eq_refl Hid)))).
  - destruct (removeLastGarment_hides_last_layer freshM0) as [Hroot _].
    apply Hroot. reflexivity.
Defined.

Lemma addGarment_extends_composition_witness :
  exists st',
    run plainErrorMessage dressedM0
      [GarmentSelect sweatFile sweat; Settle (Resolved "M3")] = Some st'
    /\ activeGarmentIds st'
       = ["google-cloud-jacket"; "gemini-tee"; "gemini-sweat"]
    /\ displayImageUrl st' = Some "M3".
Proof.
  destruct (addGarment_extends_composition plainErrorMessage dressedM0 sweatFile
              sweat "M3")
    as (st' & Hrun & _ & _ & Hids & Hd & _); try reflexivity; [discriminate|].
  exists st'. split; [exact Hrun|]. split; [exact Hids|exact Hd].
Defined.

Lemma selectPose_success_grows_cache_witness :
  exists st',
    run plainErrorMessage posedM0 [PoseSelect 1; Settle (Resolved "M1t")]
    = Some st'
    /\ displayImageUrl st' = Some "M1t"
    /\ availablePoseKeys st'
       = [POSE0; "Side profile view"; "Slightly turned, 3/4 view"]
    /\ displayImageUrl (handlePoseSelect 1 posedM0) = Some "M1".
Proof.
  destruct (selectPose_success_grows_cache plainErrorMessage posedM0 1
              (mkLayer (Some jacket) [(POSE0, "M1"); ("Side profile view", "M1s")])
              "M1t")
    as (Hflight & st' & Hrun & _ & _ & _ & _ & Hd & Hkeys & _);
    try reflexivity; try discriminate.
  exists st'. split; [exact Hrun|]. split; [exact Hd|].
  split; [exact Hkeys|exact Hflight].
Defined.

(** On [posedM0] the side profile [M1s] is on display, and it is [M1s],
    not the representative [M1], that the tee is put on. *)
Lemma addGarment_builds_on_displayed_pose_witness :
  firstValue (poseImages (mkLayer (Some jacket)
                [(POSE0, "M1"); ("Side profile view", "M1s")])) = Some "M1"
  /\ genLog (handleGarmentSelect teeFile tee posedM0)
     = genLog posedM0 ++ [CallTryOn "M1s" teeFile].
Proof.
  split; [reflexivity|].
  assert ("M1s" <> "") as Hne by discriminate.
  exact (proj1 (addGarment_builds_on_displayed_pose plainErrorMessage posedM0
                  teeFile tee
                  (mkLayer (Some jacket)
                     [(POSE0, "M1"); ("Side profile view", "M1s")])
                  "M1s" "M4" eq_refl eq_refl eq_refl Hne eq_refl)).
Defined.

Lemma replay_rebuilds_history_witness :
  exists st',
    settleAll plainErrorMessage
      (TimerFired :: replaySteps [sweatFile; jacketFile] ["N1"; "N2"])
      (handleApplySavedOutfit
         (SavedOutfit.mk "outfit-3" "Layers"
            ["gemini-sweat"; "custom-gone"; "google-cloud-jacket"] "P")
         undoneM0) = Some st'
    /\ outfitHistory st'
       = [rootM0; garmentLayer sweat "N1"; garmentLayer jacket "N2"]
    /\ currentOutfitIndex st' = 2
    /\ genLog st'
       = genLog undoneM0 ++ [CallTryOn "M0" sweatFile; CallTryOn "N1" jacketFile].
Proof.
  destruct (replay_rebuilds_history plainErrorMessage undoneM0
              (SavedOutfit.mk "outfit-3" "Layers"
                 ["gemini-sweat"; "custom-gone"; "google-cloud-jacket"] "P")
              rootM0 (drop 1 (outfitHistory undoneM0)) "M0"
              [sweatFile; jacketFile] ["N1"; "N2"])
    as (st' & Hrun & Hh & Hidx & Hlog & _); try reflexivity; [discriminate|].
  exists st'. split; [exact Hrun|]. split; [exact Hh|]. split; [exact Hidx|exact Hlog].
Defined.

Lemma replay_failure_keeps_progress_witness :
  exists st',
    settleAll plainErrorMessage
      (TimerFired :: replaySteps [sweatFile] ["N1"]
       ++ [FileLoaded jacketFile; Rejected "blocked"])
      (handleApplySavedOutfit
         (SavedOutfit.mk "outfit-3" "Layers"
            ["gemini-sweat"; "google-cloud-jacket"; "gemini-tee"] "P")
         undoneM0) = Some st'
    /\ outfitHistory st' = [rootM0; garmentLayer sweat "N1"]
    /\ currentOutfitIndex st' = 1
    /\ error st' = Some (plainErrorMessage "blocked" "Failed to apply Cloud Jacket")
    /\ isLoading st' = false.
Proof.
  destruct (replay_failure_keeps_progress plainErrorMessage undoneM0
              (SavedOutfit.mk "outfit-3" "Layers"
                 ["gemini-sweat"; "google-cloud-jacket"; "gemini-tee"] "P")
              rootM0 (drop 1 (outfitHistory undoneM0)) "M0"
              ["gemini-sweat"] ["gemini-tee"] "google-cloud-jacket" jacket
              [sweatFile] ["N1"] (Some jacketFile) "blocked")
    as (st' & Hrun & Hh & Hidx & _ & Herr & Hl & _);
    try reflexivity; [discriminate|].
  exists st'. split; [exact Hrun|]. split; [exact Hh|]. split; [exact Hidx|].
  split; [exact Herr|exact Hl].
Defined.

(** The outfit saved on [dressedM0], replayed after two undos. *)
Lemma save_then_apply_round_trip_witness :
  exists outfit st',
    handleSaveOutfit (Some "My New Look") 1700000000000 dressedM0 []
    = [outfit]
    /\ SavedOutfit.id outfit = "outfit-1700000000000"
    /\ SavedOutfit.previewUrl outfit = "M2"
    /\ settleAll plainErrorMessage
         (TimerFired :: replaySteps [jacketFile; teeFile] ["N1"; "N2"])
         (handleApplySavedOutfit outfit undoneM0) = Some st'
    /\ activeGarmentIds st' = activeGarmentIds dressedM0.
Proof.
  assert (handleSaveOutfit (Some "My New Look") 1700000000000 dressedM0 []
          = [SavedOutfit.mk "outfit-1700000000000" "My New Look"
               ["google-cloud-jacket"; "gemini-tee"] "M2"]) as Hsave.
  { vm_compute. reflexivity. }
  assert ("M0" <> "") as Hne by discriminate.
  assert (Forall (fun garmentId =>
                    is_Some (findGarment (wardrobe undoneM0) garmentId))
                 (activeGarmentIds dressedM0)) as Hres.
  { repeat constructor; by eexists. }
  destruct (save_then_apply_round_trip plainErrorMessage dressedM0 undoneM0
              (Some "My New Look") 1700000000000 [] _
              rootM0 (drop 1 (outfitHistory undoneM0)) "M0"
              [jacketFile; teeFile] ["N1"; "N2"]
              Hsave eq_refl eq_refl eq_refl eq_refl Hne Hres eq_refl eq_refl)
    as (_ & _ & st' & Hrun & Hids & _).
  eexists. exists st'. split; [exact Hsave|]. split; [reflexivity|].
  split; [reflexivity|]. split; [exact Hrun|exact Hids].
Defined.

Lemma saveOutfit_prepends_or_refuses_witness :
  handleSaveOutfit (Some "My New Look") 1700000000000 freshM0 [] = []
  /\ handleSaveOutfit None 1700000000000 dressedM0 [] = []
  /\ handleSaveOutfit (Some "My New Look") 1700000000000 dressedM0 []
     = [SavedOutfit.mk "outfit-1700000000000" "My New Look"
          ["google-cloud-jacket"; "gemini-tee"] "M2"].
Proof.
  destruct (saveOutfit_prepends_or_refuses (Some "My New Look") 1700000000000
              freshM0 []) as (_ & Hroot & _).
  destruct (saveOutfit_prepends_or_refuses None 1700000000000 dressedM0 [])
    as (_ & _ & _ & Hcancel & _).
  destruct (saveOutfit_prepends_or_refuses (Some "My New Look") 1700000000000
              dressedM0 []) as (_ & _ & _ & _ & Hsave).
  split; [apply Hroot; reflexivity|]. split; [apply Hcancel; reflexivity|].
  rewrite (Hsave "My New Look" "M2"); try reflexivity; try discriminate.
  simpl. lia.
Defined.

Lemma startOver_leaves_call_in_flight_witness :
  inflight busyM0 = Some (AwaitTryOn 1 tee)
  /\ exists st',
       settle plainErrorMessage (Resolved "M2") (handleStartOver busyM0) = Some st'
       /\ outfitHistory st' = [garmentLayer tee "M2"]
       /\ currentOutfitIndex st' = 1
       /\ displayImageUrl st' = None.
Proof.
  split; [reflexivity|].
  destruct (startOver_leaves_call_in_flight plainErrorMessage busyM0 "M2")
    as (_ & _ & Hadd).
  exact (Hadd 1 tee eq_refl).
Defined.
